(** * SecureBot: the anti-spam counter, the user registry and the message
      pipeline of [bot.py], embedded as functions of an explicit world.

    The handlers of [bot.py] talk to three things outside the interpreter: the
    SQLite file, the Telegram platform and the system clock.  They are kept in
    one record, [world], and every function of the source becomes a
    computation [M A := world -> outcome A * world] that may raise a Python
    exception.  The two tables are lists of rows, in insertion order, so that
    the primary-key behaviour of [INSERT OR IGNORE], [INSERT] and [UPDATE] is
    written out rather than built into the container. *)

From Stdlib Require Import ZArith List String Ascii Bool Arith Lia.
From Stdlib Require Import DecimalString Permutation Sorted.
Import ListNotations.

Local Open Scope string_scope.
Local Open Scope list_scope.
Local Open Scope Z_scope.

(* ------------------------------------------------------------------ *)
(** ** Python values *)

(** The exceptions the modelled code can meet.  All of them derive from
    [Exception], so [except Exception] and a bare [except] catch each one. *)
Inductive exn : Type :=
  | OperationalError   (* sqlite3: the database cannot be opened, read or written *)
  | IntegrityError     (* sqlite3: a plain INSERT hits an existing primary key *)
  | AttributeError     (* attribute access on None *)
  | TypeError          (* aware - naive datetime, fromisoformat(None) *)
  | ValueError         (* fromisoformat on text that is not ISO 8601 *)
  | TelegramError.     (* a platform call failed *)

Inductive outcome (A : Type) : Type :=
  | Ret (a : A)
  | Raise (e : exn).
Arguments Ret {A} a.
Arguments Raise {A} e.

(** A [datetime].  Time is counted in microseconds, the resolution of the
    type.  An aware value is a UTC instant; a naive one carries no offset and
    cannot be subtracted from an aware one. *)
Inductive datetime : Type :=
  | Aware (us : Z)
  | Naive (us : Z).

(** What a TEXT column holds, as far as [datetime.fromisoformat] can tell:
    the ISO text of a datetime, NULL, or text that is not ISO 8601. *)
Inductive sql_text : Type :=
  | IsoText (d : datetime)
  | SqlNull
  | BadText.

Definition isoformat (d : datetime) : sql_text := IsoText d.

Definition fromisoformat (t : sql_text) : outcome datetime :=
  match t with
  | IsoText d => Ret d
  | SqlNull => Raise TypeError
  | BadText => Raise ValueError
  end.

(** [a - b] on datetimes: a timedelta, in microseconds. *)
Definition datetime_sub (a b : datetime) : outcome Z :=
  match a, b with
  | Aware x, Aware y => Ret (x - y)
  | Naive x, Naive y => Ret (x - y)
  | _, _ => Raise TypeError
  end.

Definition US_PER_SECOND : Z := 1000000.

(** [timedelta(minutes=m)] *)
Definition timedelta_minutes (m : Z) : Z := m * 60 * US_PER_SECOND.

(** [d + delta] *)
Definition datetime_add (d : datetime) (delta : Z) : datetime :=
  match d with
  | Aware x => Aware (x + delta)
  | Naive x => Naive (x + delta)
  end.

(** [delta.total_seconds() > secs].  [total_seconds] is the correctly rounded
    quotient of the microsecond count by 10^6; [secs] is a small integer, so
    the float comparison agrees with the exact one on microseconds. *)
Definition total_seconds_gt (delta secs : Z) : bool :=
  delta >? secs * US_PER_SECOND.

(* ------------------------------------------------------------------ *)
(** ** The database, the platform and the world *)

Record User : Type := mkUser {
  id : Z;
  username : option string;
  first_name : option string;
  last_name : option string
}.

(** A row of [users]. *)
Record user_row : Type := mkUserRow {
  u_user_id : Z;
  u_username : string;
  u_first_name : string;
  u_last_name : string;
  u_added_at : sql_text
}.

(** A row of [spam].  [count] is a Python int; the rows this program writes
    start at 1 and grow by one per message, far below SQLite's 64-bit
    limit, so the column is an unbounded integer here. *)
Record spam_row : Type := mkSpamRow {
  s_user_id : Z;
  s_count : Z;
  s_last_ts : sql_text
}.

Record database : Type := mkDb {
  users : list user_row;
  spam : list spam_row
}.

(** What a handler does to the outside, in the order it happens. *)
Inductive event : Type :=
  | LogWarning (msg : string)
  | ReplyText (text : string)
  | RestrictChatMember (chat_id user_id : Z) (can_send_messages : bool)
                       (until_date : option datetime)
  | CreateTaskAutoDelete (delay_seconds : Z).

(** A fault schedule: [k :: ks] lets [k] calls succeed, fails the next one and
    goes on with [ks]; the empty schedule never fails. *)
Definition schedule : Type := list nat.

Record world : Type := mkWorld {
  db : database;            (* the committed content of DB_PATH *)
  clock : Z;                (* the UTC clock, microseconds; it stands still
                               while one handler runs *)
  sqlite_faults : schedule; (* storage failures to come *)
  bot_faults : schedule;    (* platform failures to come *)
  trace : list event        (* effects so far, oldest first *)
}.

Definition set_db (d : database) (w : world) : world :=
  mkWorld d (clock w) (sqlite_faults w) (bot_faults w) (trace w).
Definition set_clock (t : Z) (w : world) : world :=
  mkWorld (db w) t (sqlite_faults w) (bot_faults w) (trace w).
Definition set_sqlite_faults (s : schedule) (w : world) : world :=
  mkWorld (db w) (clock w) s (bot_faults w) (trace w).
Definition set_bot_faults (s : schedule) (w : world) : world :=
  mkWorld (db w) (clock w) (sqlite_faults w) s (trace w).
Definition set_trace (tr : list event) (w : world) : world :=
  mkWorld (db w) (clock w) (sqlite_faults w) (bot_faults w) tr.

(* ------------------------------------------------------------------ *)
(** ** The monad of handlers *)

Definition M (A : Type) : Type := world -> outcome A * world.

Definition ret {A} (a : A) : M A := fun w => (Ret a, w).
Definition raise {A} (e : exn) : M A := fun w => (Raise e, w).

Definition bind {A B} (m : M A) (k : A -> M B) : M B :=
  fun w =>
    match m w with
    | (Ret a, w') => k a w'
    | (Raise e, w') => (Raise e, w')
    end.

(** [try: body / except: handler] *)
Definition try_except {A} (body : M A) (handler : exn -> M A) : M A :=
  fun w =>
    match body w with
    | (Ret a, w') => (Ret a, w')
    | (Raise e, w') => handler e w'
    end.

Definition lift_outcome {A} (o : outcome A) : M A := fun w => (o, w).

Declare Scope py_scope.
Delimit Scope py_scope with py.
Notation "x <- m ;; k" := (bind m (fun x => k))
  (at level 61, m at next level, right associativity) : py_scope.
Notation "m ;;; k" := (bind m (fun _ => k))
  (at level 61, right associativity) : py_scope.
Local Open Scope py_scope.

(** [obj.attr] where [obj] may be None *)
Definition attr {A} (obj : option A) : M A :=
  match obj with
  | Some a => ret a
  | None => raise AttributeError
  end.

(** [datetime.now(timezone.utc)]: the clock, as an aware datetime *)
Definition datetime_now : M datetime := fun w => (Ret (Aware (clock w)), w).

Definition emit (e : event) : M unit :=
  fun w => (Ret tt, set_trace (trace w ++ [e]) w).

Definition logger_warning (msg : string) : M unit := emit (LogWarning msg).

(** One call into a fallible service: consult the schedule. *)
Definition tick (s : schedule) : bool * schedule :=
  match s with
  | [] => (false, [])
  | O :: ks => (true, ks)
  | S k :: ks => (false, k :: ks)
  end.

Definition sqlite_call : M unit :=
  fun w =>
    let (fails, s) := tick (sqlite_faults w) in
    if fails then (Raise OperationalError, set_sqlite_faults s w)
    else (Ret tt, set_sqlite_faults s w).

Definition bot_call (e : event) : M unit :=
  fun w =>
    let (fails, s) := tick (bot_faults w) in
    if fails then (Raise TelegramError, set_bot_faults s w)
    else (Ret tt, set_trace (trace w ++ [e]) (set_bot_faults s w)).

(* ------------------------------------------------------------------ *)
(** ** sqlite3 *)

(** A connection works on its own copy of the database; [commit] publishes
    it.  A connection dropped without commit leaves the file as it was. *)
Definition read_db : M database := fun w => (Ret (db w), w).
Definition write_db (d : database) : M unit := fun w => (Ret tt, set_db d w).

Definition sqlite3_connect : M database := sqlite_call ;;; read_db.

Definition conn_commit (conn : database) : M unit := sqlite_call ;;; write_db conn.

Definition conn_close : M unit := sqlite_call.

Definition has_user (uid : Z) (rows : list user_row) : bool :=
  existsb (fun r => u_user_id r =? uid) rows.

(** INSERT OR IGNORE INTO users ...: a row whose key is taken is dropped. *)
Definition insert_or_ignore_user (r : user_row) (conn : database) : M database :=
  sqlite_call ;;;
  ret (if has_user (u_user_id r) (users conn) then conn
       else mkDb (users conn ++ [r]) (spam conn)).

(** SELECT count, last_ts FROM spam WHERE user_id=? followed by fetchone() *)
Definition fetch_spam (uid : Z) (rows : list spam_row) : option (Z * sql_text) :=
  match find (fun r => s_user_id r =? uid) rows with
  | Some r => Some (s_count r, s_last_ts r)
  | None => None
  end.

Definition select_spam (uid : Z) (conn : database) : M (option (Z * sql_text)) :=
  sqlite_call ;;; ret (fetch_spam uid (spam conn)).

(** INSERT INTO spam ...: a taken key is an error. *)
Definition insert_spam (r : spam_row) (conn : database) : M database :=
  sqlite_call ;;;
  match fetch_spam (s_user_id r) (spam conn) with
  | Some _ => raise IntegrityError
  | None => ret (mkDb (users conn) (spam conn ++ [r]))
  end.

(** UPDATE spam SET count=?, last_ts=? WHERE user_id=? *)
Definition update_rows (uid count : Z) (ts : sql_text) (rows : list spam_row)
  : list spam_row :=
  map (fun r => if s_user_id r =? uid then mkSpamRow uid count ts else r) rows.

Definition update_spam (uid count : Z) (ts : sql_text) (conn : database) : M database :=
  sqlite_call ;;;
  ret (mkDb (users conn) (update_rows uid count ts (spam conn))).

(* ------------------------------------------------------------------ *)
(** ** Helpers of [bot.py] *)

(** [s or ""] *)
Definition or_empty (s : option string) : string :=
  match s with
  | Some x => x
  | None => ""
  end.

Definition save_user (user : User) : M unit :=
  try_except
    (conn <- sqlite3_connect ;;
     now <- datetime_now ;;
     conn <- insert_or_ignore_user
               (mkUserRow (id user) (or_empty (username user))
                          (or_empty (first_name user)) (or_empty (last_name user))
                          (isoformat now))
               conn ;;
     conn_commit conn ;;;
     conn_close)
    (fun _ => logger_warning "save_user error").

(* ------------------------------------------------------------------ *)
(** ** Anti-spam (basic) *)

Definition SPAM_LIMIT : Z := 6.
Definition SPAM_WINDOW_SEC : Z := 10.

Definition spam_record_and_check (user_id : Z) : M Z :=
  conn <- sqlite3_connect ;;
  row <- select_spam user_id conn ;;
  now <- datetime_now ;;
  match row with
  | None =>
      conn <- insert_spam (mkSpamRow user_id 1 (isoformat now)) conn ;;
      conn_commit conn ;;;
      conn_close ;;;
      ret 1
  | Some (count, last_ts) =>
      last <- try_except (lift_outcome (fromisoformat last_ts))
                         (fun _ => ret now) ;;
      delta <- lift_outcome (datetime_sub now last) ;;
      if total_seconds_gt delta SPAM_WINDOW_SEC then
        conn <- update_spam user_id 1 (isoformat now) conn ;;
        conn_commit conn ;;;
        conn_close ;;;
        ret 1
      else
        let count := count + 1 in
        conn <- update_spam user_id count (isoformat now) conn ;;
        conn_commit conn ;;;
        conn_close ;;;
        ret count
  end.

(* ------------------------------------------------------------------ *)
(** ** Updates *)

Record Chat : Type := mkChat { chat_id : Z }.

Record Message : Type := mkMessage { text : option string }.

(** The fields of a telegram [Update] the handlers read.  [message] is None
    for an edited message or a channel post, [effective_user] is None when
    the update has no sender. *)
Record Update : Type := mkUpdate {
  effective_user : option User;
  effective_chat : option Chat;
  message : option Message
}.

(** [await message.reply_text(text)] *)
Definition reply_text (m : Message) (txt : string) : M unit :=
  bot_call (ReplyText txt).

(** [await context.bot.restrict_chat_member(chat, user, ChatPermissions(can_send_messages=b), until_date=u)] *)
Definition restrict_chat_member (chat user : Z) (can_send : bool)
                                (until_date : option datetime) : M unit :=
  bot_call (RestrictChatMember chat user can_send until_date).

Definition SPAM_WARNING : string :=
  "⚠️ You are sending messages too fast. Muted for 10 minutes.".

Definition handle_spam_action (update : Update) (count : Z) : M unit :=
  try_except
    (m <- attr (message update) ;;
     reply_text m SPAM_WARNING ;;;
     now <- datetime_now ;;
     let until_date := datetime_add now (timedelta_minutes 10) in
     chat <- attr (effective_chat update) ;;
     user <- attr (effective_user update) ;;
     restrict_chat_member (chat_id chat) (id user) false (Some until_date))
    (fun _ => logger_warning "mute failed").

(* ------------------------------------------------------------------ *)
(** ** Auto-delete and auto-reply *)

Definition AUTO_DELETE_SECONDS : Z := 12.

(** [str.lower()], on ASCII text: a string is a sequence of bytes here, and
    only the letters A-Z are folded.  On a text with other characters
    [str.lower()] follows the Unicode tables, which are not modelled; what is
    stated below about the choice of a reply is stated for ASCII texts. *)
Definition lower_ascii (c : ascii) : ascii :=
  let n := nat_of_ascii c in
  if ((65 <=? n) && (n <=? 90))%nat then ascii_of_nat (n + 32) else c.

Fixpoint lower (s : string) : string :=
  match s with
  | EmptyString => EmptyString
  | String c s' => String (lower_ascii c) (lower s')
  end.

(** [k in text] *)
Fixpoint contains (k txt : string) : bool :=
  prefix k txt ||
  match txt with
  | EmptyString => false
  | String _ txt' => contains k txt'
  end.

(** The dict literal of [auto_reply_handler], in insertion order. *)
Definition replies : list (string * string) :=
  [ ("hi", "Hello! 👋");
    ("hello", "Hi there 😊");
    ("how are you", "I'm fine — thanks!");
    ("help", "Use /help to see available commands.") ].

Fixpoint first_reply (items : list (string * string)) (txt : string) : option string :=
  match items with
  | [] => None
  | (k, v) :: rest => if contains k txt then Some v else first_reply rest txt
  end.

Definition auto_reply_handler (update : Update) : M unit :=
  m <- attr (message update) ;;
  let txt := lower (or_empty (text m)) in
  match first_reply replies txt with
  | Some v => reply_text m v
  | None => ret tt
  end.

(* ------------------------------------------------------------------ *)
(** ** Message pipeline *)

(** [asyncio.create_task(auto_delete_handler(update, context))]: the task is
    only scheduled here; it sleeps [AUTO_DELETE_SECONDS] and deletes the
    message after the pipeline has returned. *)
Definition create_task_auto_delete : M unit :=
  emit (CreateTaskAutoDelete AUTO_DELETE_SECONDS).

Definition pipeline_handlers (update : Update) : M unit :=
  let user := effective_user update in
  (match user with
   | Some u => save_user u
   | None => ret tt
   end) ;;;
  u <- attr user ;;
  cnt <- spam_record_and_check (id u) ;;
  if cnt >=? SPAM_LIMIT then
    handle_spam_action update cnt
  else
    auto_reply_handler update ;;;
    create_task_auto_delete.

(* ------------------------------------------------------------------ *)
(** ** Password generation *)

Definition ascii_lowercase : string := "abcdefghijklmnopqrstuvwxyz".
Definition ascii_uppercase : string := "ABCDEFGHIJKLMNOPQRSTUVWXYZ".
Definition ascii_letters : string := (ascii_lowercase ++ ascii_uppercase)%string.
Definition digits : string := "0123456789".
Definition specials : string := "!@#$%^&*()_-+=<>?/{}[]|".

Definition code_between (lo hi : nat) (c : ascii) : bool :=
  let n := nat_of_ascii c in ((lo <=? n) && (n <=? hi))%nat.

(** [c.islower()], [c.isupper()], [c.isdigit()] for one ASCII character *)
Definition islower (c : ascii) : bool := code_between 97 122 c.
Definition isupper (c : ascii) : bool := code_between 65 90 c.
Definition isdigit (c : ascii) : bool := code_between 48 57 c.

(** [c in s] for one character *)
Definition char_in (c : ascii) (s : string) : bool :=
  existsb (Ascii.eqb c) (list_ascii_of_string s).

(** [any(p(c) for c in pwd)] *)
Definition any (p : ascii -> bool) (pwd : string) : bool :=
  existsb p (list_ascii_of_string pwd).

(** The system's random source: [rnd i] is the i-th number it hands out.
    [secrets.choice(seq)] is [seq[randbelow(len(seq))]]. *)
Definition choice (seq : string) (r : nat) : ascii :=
  nth (r mod String.length seq)%nat (list_ascii_of_string seq) "000"%char.

(** ["".join(secrets.choice(alphabet) for _ in range(n))], drawing from
    position [pos] of the source on *)
Fixpoint draw (alphabet : string) (rnd : nat -> nat) (pos n : nat) : string :=
  match n with
  | O => EmptyString
  | S n' => String (choice alphabet (rnd pos)) (draw alphabet rnd (S pos) n')
  end.

Definition password_alphabet (use_special : bool) : string :=
  let alphabet := (ascii_letters ++ digits)%string in
  if use_special then (alphabet ++ specials)%string else alphabet.

Definition password_ok (use_special : bool) (pwd : string) : bool :=
  any islower pwd && any isupper pwd && any isdigit pwd
  && (negb use_special || any (fun c => char_in c specials) pwd).

(** The [while True] loop: [fuel] bounds the number of attempts, and [None]
    stands for a loop that has not returned within them. *)
Fixpoint generate_password_from (fuel : nat) (rnd : nat -> nat) (pos : nat)
                                (length : Z) (use_special : bool) : option string :=
  match fuel with
  | O => None
  | S fuel' =>
      let n := Z.to_nat length in   (* range(length) is empty below 1 *)
      let pwd := draw (password_alphabet use_special) rnd pos n in
      if password_ok use_special pwd then Some pwd
      else generate_password_from fuel' rnd (pos + n)%nat length use_special
  end.

Definition generate_password (fuel : nat) (rnd : nat -> nat)
                             (length : Z) (use_special : bool) : option string :=
  generate_password_from fuel rnd 0 length use_special.

Section Commands.

(** The builtin [int(s)]: the integer a string denotes, or ValueError. *)
Variable int : string -> outcome Z.

(** The length [cmd_gen] asks for, from [context.args]. *)
Definition cmd_gen_length (args : list string) : Z :=
  match args with
  | [] => 16
  | a :: _ =>
      match int a with
      | Ret n => Z.max 6 (Z.min 64 n)
      | Raise _ => 16
      end
  end.

(** The text [cmd_gen] replies with. *)
Definition cmd_gen (fuel : nat) (rnd : nat -> nat) (args : list string)
  : option string :=
  match generate_password fuel rnd (cmd_gen_length args) true with
  | Some pwd => Some ("🔐 " ++ pwd)%string
  | None => None
  end.

End Commands.

(* ------------------------------------------------------------------ *)
(** ** Streams of messages *)

(** What one run of the pipeline left behind. *)
Record report : Type := mkReport {
  rep_outcome : outcome unit;
  rep_events : list event;               (* the effects of this message *)
  rep_count : option (Z * sql_text)      (* the sender's spam row afterwards *)
}.





(* ------------------------------------------------------------------ *)
(** ** The registry, read back *)

(** Keys in ascending order. *)
Fixpoint insert_key (k : Z) (l : list Z) : list Z :=
  match l with
  | [] => [k]
  | x :: rest => if k <=? x then k :: l else x :: insert_key k rest
  end.

Fixpoint sort_keys (l : list Z) : list Z :=
  match l with
  | [] => []
  | k :: rest => insert_key k (sort_keys rest)
  end.

(** SELECT user_id FROM users followed by fetchall().  [user_id] is the
    INTEGER PRIMARY KEY of the table, that is its rowid, and SQLite scans a
    table in rowid order: the keys come back ascending, whatever the order
    in which the rows were inserted. *)
Definition select_user_ids (conn : database) : M (list Z) :=
  sqlite_call ;;; ret (sort_keys (map u_user_id (users conn))).

Definition get_all_user_ids : M (list Z) :=
  conn <- sqlite3_connect ;;
  rows <- select_user_ids conn ;;
  conn_close ;;;
  ret rows.

(** [save_user(user)] for a [user] that may be None, as [cmd_start] calls
    it: the attributes of the argument are read inside the try, once the
    connection is open.  On a user it is [save_user]. *)
Definition save_user_of (user : option User) : M unit :=
  try_except
    (conn <- sqlite3_connect ;;
     u <- attr user ;;
     now <- datetime_now ;;
     conn <- insert_or_ignore_user
               (mkUserRow (id u) (or_empty (username u))
                          (or_empty (first_name u)) (or_empty (last_name u))
                          (isoformat now))
               conn ;;
     conn_commit conn ;;;
     conn_close)
    (fun _ => logger_warning "save_user error").

(** [str(n)] for an integer *)
Definition str_int (n : Z) : string := NilZero.string_of_int (Z.to_int n).

(** The line feed of a Python string literal *)
Definition LF : string := String "010" EmptyString.

(* ------------------------------------------------------------------ *)
(** ** Commands and chat events

    The command handlers call the platform in ways the pipeline does not
    (ban, unban, send to a chat, delete).  Their calls are journalled in a
    [session], which wraps the world of the storage helpers. *)

Module Cmd.

(** The message a command replies to; [from_user] is None when it has no
    sender. *)
Record RepliedMessage : Type := mkReplied { from_user : option User }.

Record Message : Type := mkCmdMessage { reply_to_message : option RepliedMessage }.

(** [status_name] is [status.name]; None when the status has no name. *)
Record ChatMember : Type := mkChatMember {
  status_name : option string;
  user : User
}.

Record ChatMemberUpdated : Type := mkChatMemberUpdated {
  new_chat_member : ChatMember;
  chat : Chat
}.

Record Update : Type := mkCmdUpdate {
  effective_user : option User;
  effective_chat : option Chat;
  message : option Message;
  chat_member : option ChatMemberUpdated
}.

(** A call the platform accepted. *)
Inductive action : Type :=
  | Reply (text : string) (parse_mode : option string)
  | SendMessage (chat_id : Z) (text : string) (parse_mode : option string)
  | BanChatMember (chat_id user_id : Z)
  | UnbanChatMember (chat_id user_id : Z)
  | Restrict (chat_id user_id : Z) (can_send_messages : bool)
  | DeleteMessage.

Record session : Type := mkSession {
  base : world;
  journal : list action   (* accepted calls, oldest first *)
}.

Definition C (A : Type) : Type := session -> outcome A * session.

Definition cret {A} (a : A) : C A := fun s => (Ret a, s).
Definition craise {A} (e : exn) : C A := fun s => (Raise e, s).

Definition cbind {A B} (m : C A) (k : A -> C B) : C B :=
  fun s =>
    match m s with
    | (Ret a, s') => k a s'
    | (Raise e, s') => (Raise e, s')
    end.

Definition ctry {A} (body : C A) (handler : exn -> C A) : C A :=
  fun s =>
    match body s with
    | (Ret a, s') => (Ret a, s')
    | (Raise e, s') => handler e s'
    end.

(** A storage helper or a log line, run on the wrapped world. *)
Definition lift {A} (m : M A) : C A :=
  fun s => let (o, w') := m (base s) in (o, mkSession w' (journal s)).

Declare Scope cmd_scope.
Notation "x <- m ;; k" := (cbind m (fun x => k))
  (at level 61, m at next level, right associativity) : cmd_scope.
Notation "m ;;; k" := (cbind m (fun _ => k))
  (at level 61, right associativity) : cmd_scope.
Local Open Scope cmd_scope.

Definition cattr {A} (obj : option A) : C A :=
  match obj with
  | Some a => cret a
  | None => craise AttributeError
  end.

(** One call to the platform: journalled when accepted, TelegramError when
    the schedule of the world says it fails. *)
Definition api_call (a : action) : C unit :=
  fun s =>
    let (fails, sch) := tick (bot_faults (base s)) in
    if fails then (Raise TelegramError, mkSession (set_bot_faults sch (base s)) (journal s))
    else (Ret tt, mkSession (set_bot_faults sch (base s)) (journal s ++ [a])).

(** [await asyncio.sleep(...)]: time passes. *)
Definition sleep (us : Z) : C unit :=
  fun s => (Ret tt, mkSession (set_clock (clock (base s) + us) (base s)) (journal s)).

Definition reply_text (m : Message) (txt : string) (parse_mode : option string) : C unit :=
  api_call (Reply txt parse_mode).
Definition send_message (chat : Z) (txt : string) (parse_mode : option string) : C unit :=
  api_call (SendMessage chat txt parse_mode).
Definition ban_chat_member (chat usr : Z) : C unit := api_call (BanChatMember chat usr).
Definition unban_chat_member (chat usr : Z) : C unit := api_call (UnbanChatMember chat usr).
Definition restrict_chat_member (chat usr : Z) (can_send : bool) : C unit :=
  api_call (Restrict chat usr can_send).

Section Handlers.

(** [ADMIN_ID], read from the environment at start-up. *)
Variable ADMIN_ID : Z.
(** [user.mention_html()] of the telegram library. *)
Variable mention_html : User -> string.
(** [str(e)] for an exception. *)
Variable str_exn : exn -> string.

Definition chat_member_update (update : Update) : C unit :=
  ctry
    (cm <- cattr (chat_member update) ;;
     let new := new_chat_member cm in
     name <- cattr (status_name new) ;;
     if existsb (String.eqb name) ["MEMBER"; "CREATOR"; "ADMINISTRATOR"] then
       let user := user new in
       lift (save_user user) ;;;
       let txt := ("🎉 Welcome " ++ mention_html user ++ "!" ++ LF
                   ++ "Please read the rules and /help.")%string in
       cm <- cattr (chat_member update) ;;
       send_message (chat_id (chat cm)) txt (Some "HTML")
     else cret tt)
    (fun _ => lift (logger_warning "chat_member_update error")).


Definition cmd_start (update : Update) : C unit :=
  let user := effective_user update in
  lift (save_user_of user) ;;;
  m <- cattr (message update) ;;
  reply_text m "👋 Welcome to SecureBot! Use /help to see commands." None.

(** The [for uid in users] loop of [cmd_broadcast]; [sent] is its counter. *)
Fixpoint broadcast_loop (msg : string) (users : list Z) (sent : Z) : C Z :=
  match users with
  | [] => cret sent
  | uid :: rest =>
      sent <- ctry (send_message uid msg None ;;;
                    let sent := sent + 1 in
                    sleep 50000 ;;;   (* 0.05 s *)
                    cret sent)
                   (fun _ => cret sent) ;;
      broadcast_loop msg rest sent
  end.

Definition cmd_broadcast (update : Update) (args : list string) : C unit :=
  u <- cattr (effective_user update) ;;
  if negb (id u =? ADMIN_ID) then
    m <- cattr (message update) ;;
    reply_text m "❌ Admin only" None
  else
    match args with
    | [] =>
        m <- cattr (message update) ;;
        reply_text m "Usage: /broadcast <message>" None
    | _ :: _ =>
        let msg := String.concat " " args in
        users <- lift get_all_user_ids ;;
        sent <- broadcast_loop msg users 0 ;;
        m <- cattr (message update) ;;
        reply_text m ("📢 Sent to " ++ str_int sent ++ " users")%string None
    end.

Definition cmd_ban (update : Update) : C unit :=
  u <- cattr (effective_user update) ;;
  if negb (id u =? ADMIN_ID) then cret tt
  else
    m <- cattr (message update) ;;
    match reply_to_message m with
    | None => reply_text m "Reply to a user to ban." None
    | Some r =>
        let target := from_user r in
        ctry
          (chat <- cattr (effective_chat update) ;;
           t <- cattr target ;;
           ban_chat_member (chat_id chat) (id t) ;;;
           t <- cattr target ;;
           reply_text m ("🚫 Banned " ++ mention_html t)%string (Some "HTML"))
          (fun e => reply_text m ("Failed to ban: " ++ str_exn e)%string None)
    end.

Definition cmd_kick (update : Update) : C unit :=
  u <- cattr (effective_user update) ;;
  if negb (id u =? ADMIN_ID) then cret tt
  else
    m <- cattr (message update) ;;
    match reply_to_message m with
    | None => reply_text m "Reply to a user to kick." None
    | Some r =>
        let target := from_user r in
        ctry
          (chat <- cattr (effective_chat update) ;;
           t <- cattr target ;;
           unban_chat_member (chat_id chat) (id t) ;;;
           t <- cattr target ;;
           reply_text m ("👢 Kicked " ++ mention_html t)%string (Some "HTML"))
          (fun e => reply_text m ("Failed to kick: " ++ str_exn e)%string None)
    end.

Definition cmd_mute (update : Update) : C unit :=
  u <- cattr (effective_user update) ;;
  if negb (id u =? ADMIN_ID) then cret tt
  else
    m <- cattr (message update) ;;
    match reply_to_message m with
    | None => reply_text m "Reply to a user to mute." None
    | Some r =>
        let target := from_user r in
        ctry
          (chat <- cattr (effective_chat update) ;;
           t <- cattr target ;;
           restrict_chat_member (chat_id chat) (id t) false ;;;
           t <- cattr target ;;
           reply_text m ("🔇 Muted " ++ mention_html t)%string (Some "HTML"))
          (fun e => reply_text m ("Failed to mute: " ++ str_exn e)%string None)
    end.

Definition cmd_unmute (update : Update) : C unit :=
  u <- cattr (effective_user update) ;;
  if negb (id u =? ADMIN_ID) then cret tt
  else
    m <- cattr (message update) ;;
    match reply_to_message m with
    | None => reply_text m "Reply to a user to unmute." None
    | Some r =>
        let target := from_user r in
        ctry
          (chat <- cattr (effective_chat update) ;;
           t <- cattr target ;;
           restrict_chat_member (chat_id chat) (id t) true ;;;
           t <- cattr target ;;
           reply_text m ("🔊 Unmuted " ++ mention_html t)%string (Some "HTML"))
          (fun e => reply_text m ("Failed to unmute: " ++ str_exn e)%string None)
    end.

End Handlers.

End Cmd.

(* ------------------------------------------------------------------ *)
(** ** Vocabulary of the properties *)

(** The row [save_user] offers to the table for [u] at time [t]. *)
Definition registered_as (u : User) (t : Z) : user_row :=
  mkUserRow (id u) (or_empty (username u)) (or_empty (first_name u))
            (or_empty (last_name u)) (isoformat (Aware t)).

(** The rows of [users] with a given key. *)
Definition rows_of (uid : Z) (rows : list user_row) : list user_row :=
  filter (fun r => u_user_id r =? uid) rows.

(** [appends P m]: whatever the world, [m] only appends to the trace, and
    every event it appends satisfies [P]. *)
Definition appends {A} (P : event -> Prop) (m : M A) : Prop :=
  forall w, exists new, trace (snd (m w)) = trace w ++ new /\ Forall P new.

(** [offline m]: [m] neither calls the platform nor moves the clock. *)
Definition offline {A} (m : M A) : Prop :=
  forall w, bot_faults (snd (m w)) = bot_faults w /\ clock (snd (m w)) = clock w.

Definition is_auto_reply (e : event) : bool :=
  match e with
  | ReplyText t => existsb (String.eqb t) (map snd replies)
  | _ => false
  end.

Definition is_auto_delete (e : event) : bool :=
  match e with
  | CreateTaskAutoDelete _ => true
  | _ => false
  end.






(* ------------------------------------------------------------------ *)
(** ** Example data *)

Definition SECOND : Z := US_PER_SECOND.

Definition alice : User := mkUser 7 (Some "alice") (Some "Alice") None.
Definition alice_renamed : User := mkUser 7 (Some "alice_2") (Some "Alicia") (Some "Liddell").

Definition hello_from (u : option User) : Update :=
  mkUpdate u (Some (mkChat 100)) (Some (mkMessage (Some "Hello there"))).

(** A world with the given spam rows, no users, quiet schedules and an empty
    trace, at time [t]. *)
Definition world_at (t : Z) (rows : list spam_row) : world :=
  mkWorld (mkDb [] rows) t [] [] [].

(** The world of the boundary case: the user's row says count=3 at time 0,
    and the next message arrives exactly 10.000 s later. *)
Definition w_boundary : world := world_at (10 * SECOND) [mkSpamRow 7 3 (IsoText (Aware 0))].

(** Five messages counted, the last at time 0; the clock shows 1 s. *)
Definition w_flood : world := world_at (1 * SECOND) [mkSpamRow 7 5 (IsoText (Aware 0))].

(** A store that answers the four calls of [save_user] and then fails. *)
Definition w_disk_error : world := mkWorld (mkDb [] []) (1 * SECOND) [4%nat] [] [].

(** A store that fails at once, and once. *)
Definition w_locked : world := mkWorld (mkDb [] []) (1 * SECOND) [0%nat] [] [].


(** A reading of [int] on plain decimal numerals, used in the examples. *)
Fixpoint decimal_value (s : string) (acc : Z) : outcome Z :=
  match s with
  | EmptyString => Ret acc
  | String ch s' =>
      if isdigit ch then decimal_value s' (10 * acc + Z.of_nat (nat_of_ascii ch - 48))
      else Raise ValueError
  end.

Definition decimal_int (s : string) : outcome Z :=
  match s with
  | EmptyString => Raise ValueError
  | String "-" s' =>
      match s' with
      | EmptyString => Raise ValueError
      | _ => match decimal_value s' 0 with Ret n => Ret (- n) | Raise e => Raise e end
      end
  | _ => decimal_value s 0
  end.

(** A random source whose first attempt fails ("aaaaan") and whose second
    succeeds ("AN0$?g"). *)
Definition sample_rnd (i : nat) : nat := (13 * (i - 4))%nat.

(* ------------------------------------------------------------------ *)
(** ** Vocabulary of the further properties *)

(** The keys of the two tables. *)
Definition user_keys (rows : list user_row) : list Z := map u_user_id rows.
Definition spam_keys (rows : list spam_row) : list Z := map s_user_id rows.

(** [users] after INSERT OR IGNORE of [u] at time [t]. *)
Definition with_user (u : User) (t : Z) (rows : list user_row) : list user_row :=
  if has_user (id u) rows then rows else rows ++ [registered_as u t].

(** [spam] after a committed evaluation that leaves the count of [uid] at
    [c]: the row is appended when there was none and rewritten otherwise. *)
Definition evaluated (uid c : Z) (ts : sql_text) (rows : list spam_row) : list spam_row :=
  match fetch_spam uid rows with
  | None => rows ++ [mkSpamRow uid c ts]
  | Some _ => update_rows uid c ts rows
  end.

(** Every character of [s] is an ASCII character. *)
Definition is_ascii (s : string) : bool :=
  forallb (fun ch => (nat_of_ascii ch <? 128)%nat) (list_ascii_of_string s).

(** [k] occurs in [txt]. *)
Definition is_substring (k txt : string) : Prop :=
  exists a b, txt = (a ++ k ++ b)%string.

(** How many characters of [l] satisfy [p]. *)
Definition tally (p : ascii -> bool) (l : list ascii) : nat := List.length (filter p l).

(** A random source that hands out a lowercase letter, an uppercase letter,
    a digit and a special character first. *)
Definition lucky_rnd (i : nat) : nat := nth i [0; 26; 52; 62]%nat 0%nat.

(** [journals P m]: whatever the session, [m] only appends to the journal,
    and every call it appends satisfies [P]. *)
Definition journals {A} (P : Cmd.action -> Prop) (m : Cmd.C A) : Prop :=
  forall s, exists new,
    Cmd.journal (snd (m s)) = Cmd.journal s ++ new /\ Forall P new.

(** [s] with further accepted calls. *)
Definition journalled (s : Cmd.session) (acts : list Cmd.action) : Cmd.session :=
  Cmd.mkSession (Cmd.base s) (Cmd.journal s ++ acts).

(** A command of [sender] in [chat], sent in reply to a message of [target]. *)
Definition admin_reply (sender : User) (chat : Chat) (target : option User) : Cmd.Update :=
  Cmd.mkCmdUpdate (Some sender) (Some chat)
    (Some (Cmd.mkCmdMessage (Some (Cmd.mkReplied target)))) None.

(** The calls [cmd_kick] may make. *)
Definition kick_action (a : Cmd.action) : Prop :=
  match a with
  | Cmd.UnbanChatMember _ _ | Cmd.Reply _ _ => True
  | _ => False
  end.

(** The recipients whose send the platform accepts, when one send per
    member of [uids] goes out, in this order, under the schedule [sch]: a
    refused send drops its recipient and the schedule moves on. *)
Fixpoint accepted (sch : schedule) (uids : list Z) : list Z :=
  match uids with
  | [] => []
  | uid :: rest =>
      let (fails, sch') := tick sch in
      if fails then accepted sch' rest else uid :: accepted sch' rest
  end.

(** The schedule left after one call per member of [uids]. *)
Fixpoint schedule_after (sch : schedule) (uids : list Z) : schedule :=
  match uids with
  | [] => sch
  | _ :: rest => schedule_after (snd (tick sch)) rest
  end.

(** One [send_message(uid, msg)] per recipient. *)
Definition sends (msg : string) (uids : list Z) : list Cmd.action :=
  map (fun uid => Cmd.SendMessage uid msg None) uids.

(** The statuses [chat_member_update] greets. *)
Definition joins (name : string) : bool :=
  existsb (String.eqb name) ["MEMBER"; "CREATOR"; "ADMINISTRATOR"].

(** The greeting of [chat_member_update]. *)
Definition welcome (mention_html : User -> string) (u : User) : string :=
  ("🎉 Welcome " ++ mention_html u ++ "!" ++ LF ++ "Please read the rules and /help.")%string.

(** Further example data: an administrator, a second member, and the
    library functions the commands take as parameters. *)
Definition root : User := mkUser 1 (Some "root") (Some "Root") None.
Definition bob : User := mkUser 8 (Some "bob") (Some "Bob") None.
Definition sample_mention (u : User) : string := or_empty (first_name u).
Definition sample_str_exn (e : exn) : string := "error".
Definition bob_row : user_row := mkUserRow 8 "bob" "Bob" "" (IsoText (Aware 0)).
Definition alice_row : user_row := mkUserRow 7 "alice" "Alice" "" (IsoText (Aware 0)).

(** A session on a world with the given users, at time 0, with the given
    platform schedule and nothing journalled. *)
Definition session_with (rows : list user_row) (bot : schedule) : Cmd.session :=
  Cmd.mkSession (mkWorld (mkDb rows []) 0 [] bot []) [].

(** Two users with a spam row each; the clock shows 30 s. *)
Definition w_two_users : world :=
  world_at (30 * SECOND)
    [mkSpamRow 7 4 (IsoText (Aware (25 * SECOND)));
     mkSpamRow 8 2 (IsoText (Aware (29 * SECOND)))].

(** Three registered users, inserted out of key order. *)
Definition carol_row : user_row := mkUserRow 9 "carol" "Carol" "" (IsoText (Aware 0)).
Definition three_users : list user_row := [carol_row; alice_row; bob_row].

(** A row written without a time zone, as this program never writes it. *)
Definition w_naive : world := world_at (30 * SECOND) [mkSpamRow 7 4 (IsoText (Naive 0))].

(** A platform that refuses the next call and accepts the following ones. *)
Definition w_refusing : world :=
  mkWorld (mkDb [] [mkSpamRow 7 5 (IsoText (Aware 0))]) (1 * SECOND) [] [0%nat] [].

(* ================================================================== *)
(** * Properties *)

(** ** The world under a quiet schedule *)

(** Unfolds the sqlite3 layer of a computation run on a world whose storage
    schedule is empty. *)
Ltac run_sqlite :=
  unfold sqlite3_connect, select_spam, insert_spam, update_spam,
         insert_or_ignore_user, conn_commit, conn_close, read_db, write_db,
         datetime_now, lift_outcome, try_except, bind, ret, raise, sqlite_call;
  cbn -[fetch_spam update_rows has_user total_seconds_gt Z.add Z.sub].

(** ** Rows *)

Lemma fetch_spam_app_new (uid c : Z) (ts : sql_text) (rows : list spam_row) :
  fetch_spam uid rows = None ->
  fetch_spam uid (rows ++ [mkSpamRow uid c ts]) = Some (c, ts).
Proof.
  unfold fetch_spam.
  induction rows as [|r rows IH]; simpl.
  - intros _. now rewrite Z.eqb_refl.
  - destruct (s_user_id r =? uid); [discriminate | exact IH].
Qed.

Lemma fetch_spam_update (uid c : Z) (ts : sql_text) (rows : list spam_row) :
  fetch_spam uid rows <> None ->
  fetch_spam uid (update_rows uid c ts rows) = Some (c, ts).
Proof.
  unfold fetch_spam.
  induction rows as [|r rows IH]; simpl.
  - congruence.
  - destruct (s_user_id r =? uid) eqn:E; simpl.
    + intros _. now rewrite Z.eqb_refl.
    + rewrite E. exact IH.
Qed.

Lemma fetch_spam_update_other (uid uid' c : Z) (ts : sql_text) (rows : list spam_row) :
  uid' <> uid ->
  fetch_spam uid' (update_rows uid c ts rows) = fetch_spam uid' rows.
Proof.
  intros Hne. unfold fetch_spam.
  induction rows as [|r rows IH]; simpl; [reflexivity|].
  destruct (s_user_id r =? uid) eqn:E; simpl.
  - apply Z.eqb_eq in E. rewrite E.
    destruct (uid =? uid') eqn:E'; [apply Z.eqb_eq in E'; congruence | exact IH].
  - destruct (s_user_id r =? uid'); [reflexivity | exact IH].
Qed.

(** ** The three branches of [spam_record_and_check] *)

Lemma spam_first_message (uid : Z) (w : world) :
  sqlite_faults w = [] ->
  fetch_spam uid (spam (db w)) = None ->
  spam_record_and_check uid w =
    (Ret 1, set_db (mkDb (users (db w))
                         (spam (db w) ++ [mkSpamRow uid 1 (isoformat (Aware (clock w)))])) w).
Proof.
  destruct w as [d c sf bf tr]; simpl; intros -> Hrow.
  unfold spam_record_and_check. run_sqlite. rewrite Hrow.
  run_sqlite. reflexivity.
Qed.

Lemma spam_window_expired (uid count last : Z) (w : world) :
  sqlite_faults w = [] ->
  fetch_spam uid (spam (db w)) = Some (count, isoformat (Aware last)) ->
  clock w - last > SPAM_WINDOW_SEC * US_PER_SECOND ->
  spam_record_and_check uid w =
    (Ret 1, set_db (mkDb (users (db w))
                         (update_rows uid 1 (isoformat (Aware (clock w))) (spam (db w)))) w).
Proof.
  destruct w as [d c sf bf tr]; simpl; intros -> Hrow Hgap.
  unfold spam_record_and_check. run_sqlite. rewrite Hrow.
  run_sqlite. unfold total_seconds_gt.
  destruct (c - last >? SPAM_WINDOW_SEC * US_PER_SECOND) eqn:E; [reflexivity|].
  rewrite Z.gtb_ltb, Z.ltb_ge in E.
  unfold SPAM_WINDOW_SEC, US_PER_SECOND in *. lia.
Qed.

Lemma spam_within_window (uid count last : Z) (w : world) :
  sqlite_faults w = [] ->
  fetch_spam uid (spam (db w)) = Some (count, isoformat (Aware last)) ->
  clock w - last <= SPAM_WINDOW_SEC * US_PER_SECOND ->
  spam_record_and_check uid w =
    (Ret (count + 1),
     set_db (mkDb (users (db w))
                  (update_rows uid (count + 1) (isoformat (Aware (clock w))) (spam (db w)))) w).
Proof.
  destruct w as [d c sf bf tr]; simpl; intros -> Hrow Hgap.
  unfold spam_record_and_check. run_sqlite. rewrite Hrow.
  run_sqlite. unfold total_seconds_gt.
  destruct (c - last >? SPAM_WINDOW_SEC * US_PER_SECOND) eqn:E; [|reflexivity].
  rewrite Z.gtb_ltb, Z.ltb_lt in E.
  unfold SPAM_WINDOW_SEC, US_PER_SECOND in *. lia.
Qed.

Lemma spam_unparsable (uid count : Z) (txt : sql_text) (e : exn) (w : world) :
  sqlite_faults w = [] ->
  fetch_spam uid (spam (db w)) = Some (count, txt) ->
  fromisoformat txt = Raise e ->
  spam_record_and_check uid w =
    (Ret (count + 1),
     set_db (mkDb (users (db w))
                  (update_rows uid (count + 1) (isoformat (Aware (clock w))) (spam (db w)))) w).
Proof.
  destruct w as [d c sf bf tr]; simpl; intros -> Hrow Hbad.
  unfold spam_record_and_check. run_sqlite. rewrite Hrow.
  run_sqlite. rewrite Hbad. run_sqlite.
  replace (c - c) with 0 by lia. reflexivity.
Qed.

(** ** The spam evaluation *)

(** C1: one evaluation at time [now] on a readable store.  Without a row
    for the user, the row (count=1, last_ts=now) is appended and 1
    returned; with a row whose timestamp is more than the 10-second window
    old, the row is reset to (1, now) and 1 returned; with a row whose
    timestamp is at most the window old (a gap equal to the window included),
    the row becomes (count+1, now) and count+1 is returned. *)
Theorem spam_record_and_check_spec (uid : Z) (w : world) :
  sqlite_faults w = [] ->
  let now := isoformat (Aware (clock w)) in
  let stored w' := fetch_spam uid (spam (db w')) in
  (stored w = None ->
     spam_record_and_check uid w =
       (Ret 1, set_db (mkDb (users (db w)) (spam (db w) ++ [mkSpamRow uid 1 now])) w)
     /\ stored (snd (spam_record_and_check uid w)) = Some (1, now))
  /\ (forall count last,
        stored w = Some (count, isoformat (Aware last)) ->
        clock w - last > SPAM_WINDOW_SEC * US_PER_SECOND ->
        spam_record_and_check uid w =
          (Ret 1, set_db (mkDb (users (db w)) (update_rows uid 1 now (spam (db w)))) w)
        /\ stored (snd (spam_record_and_check uid w)) = Some (1, now))
  /\ (forall count last,
        stored w = Some (count, isoformat (Aware last)) ->
        clock w - last <= SPAM_WINDOW_SEC * US_PER_SECOND ->
        spam_record_and_check uid w =
          (Ret (count + 1),
           set_db (mkDb (users (db w)) (update_rows uid (count + 1) now (spam (db w)))) w)
        /\ stored (snd (spam_record_and_check uid w)) = Some (count + 1, now)).
Proof.
  intros Hq now stored. subst stored. cbv beta. repeat split.
  - now apply spam_first_message.
  - rewrite spam_first_message by assumption. simpl.
    now apply fetch_spam_app_new.
  - now apply spam_window_expired with (count := count) (last := last).
  - rewrite spam_window_expired with (count := count) (last := last) by assumption.
    simpl. apply fetch_spam_update. congruence.
  - now apply spam_within_window with (last := last).
  - rewrite spam_within_window with (count := count) (last := last) by assumption.
    simpl. apply fetch_spam_update. congruence.
Qed.

Lemma spam_record_and_check_spec_witness :
  spam_record_and_check 7 (world_at (30 * SECOND) []) =
    (Ret 1, world_at (30 * SECOND) [mkSpamRow 7 1 (IsoText (Aware (30 * SECOND)))])
  /\ spam_record_and_check 7 (world_at (30 * SECOND) [mkSpamRow 7 4 (IsoText (Aware (19 * SECOND)))]) =
    (Ret 1, world_at (30 * SECOND) [mkSpamRow 7 1 (IsoText (Aware (30 * SECOND)))])
  /\ spam_record_and_check 7 (world_at (30 * SECOND) [mkSpamRow 7 4 (IsoText (Aware (20 * SECOND)))]) =
    (Ret 5, world_at (30 * SECOND) [mkSpamRow 7 5 (IsoText (Aware (30 * SECOND)))]).
Proof.
  split; [|split].
  - apply (proj1 (spam_record_and_check_spec 7 (world_at (30 * SECOND) []) eq_refl)).
    reflexivity.
  - apply (proj1 (proj2 (spam_record_and_check_spec 7
             (world_at (30 * SECOND) [mkSpamRow 7 4 (IsoText (Aware (19 * SECOND)))]) eq_refl))
           4 (19 * SECOND)).
    + reflexivity.
    + vm_compute. reflexivity.
  - apply (proj2 (proj2 (spam_record_and_check_spec 7
             (world_at (30 * SECOND) [mkSpamRow 7 4 (IsoText (Aware (20 * SECOND)))]) eq_refl))
           4 (20 * SECOND)).
    + reflexivity.
    + vm_compute. discriminate.
Defined.

(** C2, as stated, fails: at a gap of exactly the window the evaluation
    does not return to 1. *)
Lemma window_boundary_is_not_a_reset :
  clock w_boundary - 0 = SPAM_WINDOW_SEC * US_PER_SECOND
  /\ fst (spam_record_and_check 7 w_boundary) <> Ret 1
  /\ fetch_spam 7 (spam (db (snd (spam_record_and_check 7 w_boundary))))
     <> Some (1, isoformat (Aware (clock w_boundary))).
Proof.
  split; [reflexivity|]. split; vm_compute; discriminate.
Qed.

(** C2, amended: with a row for the user on a readable store, a gap of
    exactly 10.000 s increments the count and so does a gap of 9.999 s; in
    both cases the new count is returned and stored with last_ts=now.  Only
    a gap strictly greater than the window resets: above the window the row
    becomes (1, now) and 1 is returned, and at or below the window the row
    becomes (count+1, now) and count+1 is returned. *)
Theorem window_boundary_increments (uid count last : Z) (w : world) :
  sqlite_faults w = [] ->
  fetch_spam uid (spam (db w)) = Some (count, isoformat (Aware last)) ->
  let now := isoformat (Aware (clock w)) in
  let reset :=
    spam_record_and_check uid w =
      (Ret 1, set_db (mkDb (users (db w)) (update_rows uid 1 now (spam (db w)))) w)
    /\ fetch_spam uid (spam (db (snd (spam_record_and_check uid w)))) = Some (1, now) in
  let incremented :=
    spam_record_and_check uid w =
      (Ret (count + 1),
       set_db (mkDb (users (db w)) (update_rows uid (count + 1) now (spam (db w)))) w)
    /\ fetch_spam uid (spam (db (snd (spam_record_and_check uid w))))
       = Some (count + 1, now) in
  (clock w - last = 10000 * 1000 \/ clock w - last = 9999 * 1000 -> incremented)
  /\ (clock w - last > SPAM_WINDOW_SEC * US_PER_SECOND -> reset)
  /\ (clock w - last <= SPAM_WINDOW_SEC * US_PER_SECOND -> incremented).
Proof.
  intros Hq Hrow now reset incremented.
  assert (Hinc : clock w - last <= SPAM_WINDOW_SEC * US_PER_SECOND -> incremented).
  { intros Hgap. subst incremented.
    rewrite spam_within_window with (count := count) (last := last) by assumption.
    split; [reflexivity|]. simpl. apply fetch_spam_update. congruence. }
  split; [|split].
  - intros Hgap. apply Hinc. unfold SPAM_WINDOW_SEC, US_PER_SECOND. lia.
  - intros Hgap. subst reset.
    rewrite spam_window_expired with (count := count) (last := last) by assumption.
    split; [reflexivity|]. simpl. apply fetch_spam_update. congruence.
  - exact Hinc.
Qed.

Lemma window_boundary_increments_witness :
  fst (spam_record_and_check 7 w_boundary) = Ret 4
  /\ fst (spam_record_and_check 7 (world_at (9999 * 1000) [mkSpamRow 7 3 (IsoText (Aware 0))]))
     = Ret 4
  /\ fst (spam_record_and_check 7 (world_at (10 * SECOND + 1) [mkSpamRow 7 3 (IsoText (Aware 0))]))
     = Ret 1
  /\ fst (spam_record_and_check 7 (world_at (3 * SECOND) [mkSpamRow 7 3 (IsoText (Aware 0))]))
     = Ret 4.
Proof.
  split; [|split; [|split]].
  - rewrite (proj1 (proj1 (window_boundary_increments 7 3 0 w_boundary eq_refl eq_refl)
                      (or_introl eq_refl))).
    reflexivity.
  - rewrite (proj1 (proj1 (window_boundary_increments 7 3 0
                             (world_at (9999 * 1000) [mkSpamRow 7 3 (IsoText (Aware 0))])
                             eq_refl eq_refl)
                      (or_intror eq_refl))).
    reflexivity.
  - rewrite (proj1 (proj1 (proj2 (window_boundary_increments 7 3 0
                             (world_at (10 * SECOND + 1) [mkSpamRow 7 3 (IsoText (Aware 0))])
                             eq_refl eq_refl))
                      eq_refl)).
    reflexivity.
  - rewrite (proj1 (proj2 (proj2 (window_boundary_increments 7 3 0
                             (world_at (3 * SECOND) [mkSpamRow 7 3 (IsoText (Aware 0))])
                             eq_refl eq_refl))
                      ltac:(vm_compute; discriminate))).
    reflexivity.
Defined.

(** C10: a row whose last_ts does not parse is read as if its timestamp
    were now.  On a readable store the evaluation raises nothing, returns
    count+1 and stores (count+1, now); it never takes the reset branch. *)
Theorem unparsable_last_ts_is_a_zero_gap (uid count : Z) (txt : sql_text) (e : exn) (w : world) :
  sqlite_faults w = [] ->
  fetch_spam uid (spam (db w)) = Some (count, txt) ->
  fromisoformat txt = Raise e ->
  spam_record_and_check uid w =
    (Ret (count + 1),
     set_db (mkDb (users (db w))
                  (update_rows uid (count + 1) (isoformat (Aware (clock w))) (spam (db w)))) w)
  /\ fetch_spam uid (spam (db (snd (spam_record_and_check uid w))))
     = Some (count + 1, isoformat (Aware (clock w))).
Proof.
  intros Hq Hrow Hbad.
  rewrite spam_unparsable with (count := count) (txt := txt) (e := e) by assumption.
  split; [reflexivity|]. simpl. apply fetch_spam_update. congruence.
Qed.

Lemma unparsable_last_ts_is_a_zero_gap_witness :
  spam_record_and_check 7 (world_at (500 * SECOND) [mkSpamRow 7 3 BadText]) =
    (Ret 4, world_at (500 * SECOND) [mkSpamRow 7 4 (IsoText (Aware (500 * SECOND)))])
  /\ spam_record_and_check 7 (world_at (500 * SECOND) [mkSpamRow 7 3 SqlNull]) =
    (Ret 4, world_at (500 * SECOND) [mkSpamRow 7 4 (IsoText (Aware (500 * SECOND)))]).
Proof.
  split.
  - apply (proj1 (unparsable_last_ts_is_a_zero_gap 7 3 BadText ValueError
                    (world_at (500 * SECOND) [mkSpamRow 7 3 BadText]) eq_refl eq_refl eq_refl)).
  - apply (proj1 (unparsable_last_ts_is_a_zero_gap 7 3 SqlNull TypeError
                    (world_at (500 * SECOND) [mkSpamRow 7 3 SqlNull]) eq_refl eq_refl eq_refl)).
Defined.

(** ** The user registry *)

Lemma rows_of_absent (uid : Z) (rows : list user_row) :
  has_user uid rows = false -> rows_of uid rows = [].
Proof.
  unfold has_user, rows_of.
  induction rows as [|r rows IH]; simpl; [reflexivity|].
  destruct (u_user_id r =? uid); simpl; [discriminate | exact IH].
Qed.

Lemma rows_of_app (uid : Z) (xs ys : list user_row) :
  rows_of uid (xs ++ ys) = rows_of uid xs ++ rows_of uid ys.
Proof. apply filter_app. Qed.

Lemma has_user_app_new (r : user_row) (rows : list user_row) :
  has_user (u_user_id r) (rows ++ [r]) = true.
Proof.
  unfold has_user. rewrite existsb_app. simpl.
  rewrite Z.eqb_refl. now rewrite orb_true_r.
Qed.

(** On a readable store [save_user] is INSERT OR IGNORE and nothing else. *)
Lemma save_user_quiet (u : User) (w : world) :
  sqlite_faults w = [] ->
  save_user u w =
    (Ret tt,
     set_db (mkDb (if has_user (id u) (users (db w)) then users (db w)
                   else users (db w) ++ [registered_as u (clock w)])
                  (spam (db w))) w).
Proof.
  destruct w as [[us sp] c sf bf tr]; simpl; intros ->.
  unfold save_user. run_sqlite.
  destruct (has_user (id u) us); reflexivity.
Qed.

(** Whatever the storage does, [save_user] returns normally. *)
Lemma save_user_never_raises (u : User) (w : world) :
  fst (save_user u w) = Ret tt.
Proof.
  unfold save_user, try_except.
  match goal with |- context [match ?b w with _ => _ end] => destruct (b w) as [[[]|e] w'] end;
    reflexivity.
Qed.

(** C7: two saves under one user_id on a readable store.  The second
    call leaves the database as the first one left it; when the id was not
    registered before, the table then holds exactly one row for it, made of
    the fields and the time of the first call; when it was, the table is the
    one before both calls. *)
Theorem save_user_first_write_wins (u1 u2 : User) (t2 : Z) (w : world) :
  sqlite_faults w = [] ->
  id u2 = id u1 ->
  let w1 := snd (save_user u1 w) in
  let w2 := snd (save_user u2 (set_clock t2 w1)) in
  db w2 = db w1
  /\ (has_user (id u1) (users (db w)) = false ->
        users (db w1) = users (db w) ++ [registered_as u1 (clock w)]
        /\ rows_of (id u1) (users (db w2)) = [registered_as u1 (clock w)])
  /\ (has_user (id u1) (users (db w)) = true -> db w2 = db w).
Proof.
  intros Hq Hid w1 w2. subst w1 w2.
  rewrite (save_user_quiet u1 w Hq). cbn [snd].
  rewrite save_user_quiet by (destruct w; exact Hq).
  destruct w as [[us sp] c sf bf tr].
  cbn [snd db users spam clock set_db set_clock sqlite_faults] in *. rewrite Hid.
  destruct (has_user (id u1) us) eqn:Hin.
  - rewrite Hin. repeat split; congruence.
  - pose proof (has_user_app_new (registered_as u1 c) us) as Hnew.
    cbn [u_user_id registered_as] in Hnew. rewrite !Hnew.
    repeat split; try discriminate.
    rewrite rows_of_app, (rows_of_absent _ _ Hin). simpl.
    now rewrite Z.eqb_refl.
Qed.

Lemma save_user_first_write_wins_witness :
  let w1 := snd (save_user alice (world_at 0 [])) in
  let w2 := snd (save_user alice_renamed (set_clock (5 * SECOND) w1)) in
  db w2 = db w1
  /\ rows_of 7 (users (db w2)) = [mkUserRow 7 "alice" "Alice" "" (IsoText (Aware 0))].
Proof.
  pose proof (save_user_first_write_wins alice alice_renamed (5 * SECOND)
                (world_at 0 []) eq_refl eq_refl) as [Hsame [Hfresh _]].
  split; [exact Hsame | exact (proj2 (Hfresh eq_refl))].
Defined.

(** ** What a handler adds to the trace *)

Section Appends.

Variable P : event -> Prop.

Lemma appends_silent {A} (m : M A) :
  (forall w, trace (snd (m w)) = trace w) -> appends P m.
Proof.
  intros H w. exists []. now rewrite app_nil_r.
Qed.

Lemma appends_ret {A} (a : A) : appends P (ret a).
Proof. now apply appends_silent. Qed.

Lemma appends_raise {A} (e : exn) : appends P (@raise A e).
Proof. now apply appends_silent. Qed.

Lemma appends_lift {A} (o : outcome A) : appends P (lift_outcome o).
Proof. now apply appends_silent. Qed.

Lemma appends_attr {A} (o : option A) : appends P (attr o).
Proof. destruct o; now apply appends_silent. Qed.

Lemma appends_now : appends P datetime_now.
Proof. now apply appends_silent. Qed.

Lemma appends_read_db : appends P read_db.
Proof. now apply appends_silent. Qed.

Lemma appends_write_db (d : database) : appends P (write_db d).
Proof. now apply appends_silent. Qed.

Lemma appends_sqlite_call : appends P sqlite_call.
Proof.
  apply appends_silent. intros w. unfold sqlite_call.
  destruct (tick (sqlite_faults w)) as [[] s]; reflexivity.
Qed.

Lemma appends_emit (e : event) : P e -> appends P (emit e).
Proof.
  intros He w. exists [e]. split; [reflexivity | now constructor].
Qed.

Lemma appends_bot_call (e : event) : P e -> appends P (bot_call e).
Proof.
  intros He w. unfold bot_call.
  destruct (tick (bot_faults w)) as [[] s]; simpl.
  - exists []. now rewrite app_nil_r.
  - exists [e]. split; [reflexivity | now constructor].
Qed.

Lemma appends_bind {A B} (m : M A) (k : A -> M B) :
  appends P m -> (forall a, appends P (k a)) -> appends P (bind m k).
Proof.
  intros Hm Hk w. unfold bind.
  destruct (Hm w) as [n1 [E1 F1]].
  destruct (m w) as [[a|e] w1]; simpl in E1.
  - destruct (Hk a w1) as [n2 [E2 F2]].
    exists (n1 ++ n2). rewrite E2, E1, app_assoc.
    split; [reflexivity | now apply Forall_app].
  - now exists n1.
Qed.

Lemma appends_try {A} (m : M A) (h : exn -> M A) :
  appends P m -> (forall e, appends P (h e)) -> appends P (try_except m h).
Proof.
  intros Hm Hh w. unfold try_except.
  destruct (Hm w) as [n1 [E1 F1]].
  destruct (m w) as [[a|e] w1]; simpl in E1.
  - now exists n1.
  - destruct (Hh e w1) as [n2 [E2 F2]].
    exists (n1 ++ n2). rewrite E2, E1, app_assoc.
    split; [reflexivity | now apply Forall_app].
Qed.

End Appends.

(** Walks through a handler built from the primitives above. *)
Ltac appends_step :=
  match goal with
  | |- appends _ (bind _ _) => apply appends_bind; [|intros]
  | |- appends _ (try_except _ _) => apply appends_try; [|intros]
  | |- appends _ (ret _) => apply appends_ret
  | |- appends _ (raise _) => apply appends_raise
  | |- appends _ (lift_outcome _) => apply appends_lift
  | |- appends _ (attr _) => apply appends_attr
  | |- appends _ datetime_now => apply appends_now
  | |- appends _ read_db => apply appends_read_db
  | |- appends _ (write_db _) => apply appends_write_db
  | |- appends _ sqlite_call => apply appends_sqlite_call
  | |- appends _ (emit _) => apply appends_emit
  | |- appends _ (bot_call _) => apply appends_bot_call
  | |- appends _ (match ?x with _ => _ end) => destruct x
  end.

Lemma save_user_appends (P : event -> Prop) (u : User) :
  (forall msg, P (LogWarning msg)) -> appends P (save_user u).
Proof.
  intros HP.
  unfold save_user, sqlite3_connect, insert_or_ignore_user, conn_commit,
         conn_close, logger_warning.
  repeat appends_step; apply HP.
Qed.

Lemma spam_record_and_check_appends (P : event -> Prop) (uid : Z) :
  appends P (spam_record_and_check uid).
Proof.
  unfold spam_record_and_check, sqlite3_connect, select_spam, insert_spam,
         update_spam, conn_commit, conn_close.
  repeat appends_step.
Qed.

Lemma handle_spam_action_appends (P : event -> Prop) (update : Update) (cnt : Z) :
  (forall msg, P (LogWarning msg)) ->
  P (ReplyText SPAM_WARNING) ->
  (forall chat user until, P (RestrictChatMember chat user false until)) ->
  appends P (handle_spam_action update cnt).
Proof.
  intros HL HW HR.
  unfold handle_spam_action, reply_text, restrict_chat_member, logger_warning.
  repeat appends_step; auto.
Qed.

(** ** What the storage helpers leave alone *)

Lemma offline_pure {A} (m : M A) :
  (forall w, snd (m w) = w) -> offline m.
Proof. intros H w. now rewrite H. Qed.

Lemma offline_sqlite_call : offline sqlite_call.
Proof.
  intros w. unfold sqlite_call.
  destruct (tick (sqlite_faults w)) as [[] s]; split; reflexivity.
Qed.

Lemma offline_write_db (d : database) : offline (write_db d).
Proof. intros w. split; reflexivity. Qed.

Lemma offline_emit (e : event) : offline (emit e).
Proof. intros w. split; reflexivity. Qed.

Lemma offline_bind {A B} (m : M A) (k : A -> M B) :
  offline m -> (forall a, offline (k a)) -> offline (bind m k).
Proof.
  intros Hm Hk w. unfold bind.
  destruct (Hm w) as [B1 C1].
  destruct (m w) as [[a|e] w1]; simpl in B1, C1.
  - destruct (Hk a w1) as [B2 C2]. split; congruence.
  - now split.
Qed.

Lemma offline_try {A} (m : M A) (h : exn -> M A) :
  offline m -> (forall e, offline (h e)) -> offline (try_except m h).
Proof.
  intros Hm Hh w. unfold try_except.
  destruct (Hm w) as [B1 C1].
  destruct (m w) as [[a|e] w1]; simpl in B1, C1.
  - now split.
  - destruct (Hh e w1) as [B2 C2]. split; congruence.
Qed.

Ltac offline_step :=
  match goal with
  | |- offline (bind _ _) => apply offline_bind; [|intros]
  | |- offline (try_except _ _) => apply offline_try; [|intros]
  | |- offline sqlite_call => apply offline_sqlite_call
  | |- offline (write_db _) => apply offline_write_db
  | |- offline (emit _) => apply offline_emit
  | |- offline (match ?x with _ => _ end) => destruct x
  | |- offline _ => apply offline_pure; reflexivity
  end.

Lemma save_user_offline (u : User) : offline (save_user u).
Proof.
  unfold save_user, sqlite3_connect, insert_or_ignore_user, conn_commit,
         conn_close, logger_warning.
  repeat offline_step.
Qed.

Lemma spam_record_and_check_offline (uid : Z) : offline (spam_record_and_check uid).
Proof.
  unfold spam_record_and_check, sqlite3_connect, select_spam, insert_spam,
         update_spam, conn_commit, conn_close.
  repeat offline_step.
Qed.

(** ** The throttle branch of the pipeline *)

(** With a sender, the pipeline is the registry save, the spam evaluation and
    the branch on its count. *)
Lemma pipeline_after_evaluation (update : Update) (u : User) (w : world) (cnt : Z) :
  effective_user update = Some u ->
  let w1 := snd (save_user u w) in
  fst (spam_record_and_check (id u) w1) = Ret cnt ->
  let w2 := snd (spam_record_and_check (id u) w1) in
  pipeline_handlers update w =
    (if cnt >=? SPAM_LIMIT then handle_spam_action update cnt
     else bind (auto_reply_handler update) (fun _ => create_task_auto_delete)) w2.
Proof.
  intros Hu w1 Hcnt w2. subst w1 w2.
  unfold pipeline_handlers. rewrite Hu. unfold bind at 1 2 3.
  pose proof (save_user_never_raises u w) as Hret.
  destruct (save_user u w) as [o w1]. simpl in Hret, Hcnt |- *. subst o.
  destruct (spam_record_and_check (id u) w1) as [o w2].
  simpl in Hcnt |- *. subst o. reflexivity.
Qed.


(** C3: when the spam evaluation of an inbound message returns a count of
    at least SPAM_LIMIT, the pipeline is over once [handle_spam_action] has
    run: among the events it adds to the trace there is no keyword auto-reply
    and no scheduled auto-deletion. *)
Theorem throttle_short_circuits (update : Update) (u : User) (w : world) (cnt : Z) :
  effective_user update = Some u ->
  let w1 := snd (save_user u w) in
  fst (spam_record_and_check (id u) w1) = Ret cnt ->
  cnt >= SPAM_LIMIT ->
  let w2 := snd (spam_record_and_check (id u) w1) in
  pipeline_handlers update w = handle_spam_action update cnt w2
  /\ exists new,
       trace (snd (pipeline_handlers update w)) = trace w ++ new
       /\ Forall (fun e => is_auto_reply e = false /\ is_auto_delete e = false) new.
Proof.
  intros Hu w1 Hcnt Hlim w2.
  assert (Hrun : pipeline_handlers update w = handle_spam_action update cnt w2).
  { rewrite (pipeline_after_evaluation update u w cnt Hu Hcnt). fold w1 w2.
    destruct (cnt >=? SPAM_LIMIT) eqn:E; [reflexivity|].
    rewrite Z.geb_leb, Z.leb_gt in E. lia. }
  split; [exact Hrun|]. rewrite Hrun.
  set (P := fun e => is_auto_reply e = false /\ is_auto_delete e = false).
  assert (HL : forall msg, P (LogWarning msg)) by (intros; split; reflexivity).
  destruct (save_user_appends P u HL w) as [n1 [E1 F1]].
  destruct (spam_record_and_check_appends P (id u) w1) as [n2 [E2 F2]].
  destruct (handle_spam_action_appends P update cnt HL) with (w := w2)
    as [n3 [E3 F3]]; try (intros; split; reflexivity).
  exists (n1 ++ n2 ++ n3). split.
  - rewrite E3. subst w2. rewrite E2. subst w1. rewrite E1.
    now rewrite <- !app_assoc.
  - apply Forall_app; split; [exact F1 | apply Forall_app; split; assumption].
Qed.

Lemma throttle_short_circuits_witness :
  exists new,
    trace (snd (pipeline_handlers (hello_from (Some alice)) w_flood)) = trace w_flood ++ new
    /\ Forall (fun e => is_auto_reply e = false /\ is_auto_delete e = false) new.
Proof.
  apply (throttle_short_circuits (hello_from (Some alice)) alice w_flood 6 eq_refl eq_refl).
  vm_compute. discriminate.
Defined.




(** ** Messages without a sender *)

(** C5, on the code: without a sender the pipeline skips the registry
    save and then reads [user.id] on None: it raises AttributeError, and the
    world (tables, trace) is left as it was. *)
Theorem pipeline_without_sender_raises (c : option Chat) (m : option Message) (w : world) :
  pipeline_handlers (mkUpdate None c m) w = (Raise AttributeError, w).
Proof. reflexivity. Qed.

(** ** Storage failures *)

(** An exception of the spam evaluation leaves the pipeline as it is: no
    handler stands between [spam_record_and_check] and the caller. *)
Lemma evaluation_error_leaves_pipeline (update : Update) (u : User) (w : world) (e : exn) :
  effective_user update = Some u ->
  let w1 := snd (save_user u w) in
  fst (spam_record_and_check (id u) w1) = Raise e ->
  pipeline_handlers update w = (Raise e, snd (spam_record_and_check (id u) w1)).
Proof.
  intros Hu w1 He. subst w1.
  unfold pipeline_handlers. rewrite Hu. unfold bind at 1 2 3.
  pose proof (save_user_never_raises u w) as Hret.
  destruct (save_user u w) as [o w1]. simpl in Hret, He |- *. subst o.
  destruct (spam_record_and_check (id u) w1) as [o w2].
  simpl in He |- *. subst o. reflexivity.
Qed.

(** C6, on the code: a storage failure inside [save_user] is caught and
    logged and the pipeline goes on (second conjunct); a storage failure
    inside [spam_record_and_check] is not caught: it leaves the pipeline as
    OperationalError, nothing is logged, and neither the auto-reply nor the
    auto-deletion happens (first conjunct). *)
Theorem counter_storage_failure_propagates :
  pipeline_handlers (hello_from (Some alice)) w_disk_error =
    (Raise OperationalError,
     mkWorld (mkDb [mkUserRow 7 "alice" "Alice" "" (IsoText (Aware (1 * SECOND)))] [])
             (1 * SECOND) [] [] [])
  /\ pipeline_handlers (hello_from (Some alice)) w_locked =
    (Ret tt,
     mkWorld (mkDb [] [mkSpamRow 7 1 (IsoText (Aware (1 * SECOND)))])
             (1 * SECOND) [] []
             [LogWarning "save_user error"; ReplyText "Hi there 😊"; CreateTaskAutoDelete 12]).
Proof.
  split; vm_compute; reflexivity.
Qed.

(** ** Floods *)









(** ** Generated passwords *)

Lemma draw_length (alphabet : string) (rnd : nat -> nat) (n pos : nat) :
  String.length (draw alphabet rnd pos n) = n.
Proof.
  revert pos. induction n as [|n IH]; intros pos; simpl; [reflexivity|].
  now rewrite IH.
Qed.

(** A password that comes out of the loop passed the test of the loop and
    was drawn with the requested number of characters. *)
Lemma generate_password_from_ok (rnd : nat -> nat) (length : Z) (use_special : bool)
      (fuel : nat) :
  forall (pos : nat) (pwd : string),
    generate_password_from fuel rnd pos length use_special = Some pwd ->
    password_ok use_special pwd = true /\ String.length pwd = Z.to_nat length.
Proof.
  induction fuel as [|fuel IH]; intros pos pwd; simpl; [discriminate|].
  destruct (password_ok use_special
              (draw (password_alphabet use_special) rnd pos (Z.to_nat length))) eqn:Hok.
  - intros [= <-]. split; [exact Hok | apply draw_length].
  - apply IH.
Qed.

Lemma any_nonempty (p : ascii -> bool) (pwd : string) :
  any p pwd = true -> (0 < String.length pwd)%nat.
Proof.
  destruct pwd; simpl; [discriminate | lia].
Qed.

(** C8: the length [cmd_gen] uses is 16 without an argument or when the
    argument is not a number, and otherwise the number clamped to [6, 64];
    and whenever [generate_password] returns for a length, the password has
    exactly that many characters, with a lowercase letter, an uppercase
    letter and a digit among them, and a character of [specials] too when
    special characters are enabled.  [cmd_gen] replies exactly when the
    generator returns for that clamped length with special characters
    enabled, and its reply is the lock sign followed by that password, which
    therefore has the clamped length and all four classes. *)
Theorem generated_password_spec (int : string -> outcome Z) (args : list string) :
  let len := cmd_gen_length int args in
  6 <= len <= 64
  /\ (args = [] -> len = 16)
  /\ (forall a rest e, args = a :: rest -> int a = Raise e -> len = 16)
  /\ (forall a rest n, args = a :: rest -> int a = Ret n ->
        (n < 6 -> len = 6) /\ (6 <= n <= 64 -> len = n) /\ (64 < n -> len = 64))
  /\ (forall fuel rnd length use_special pwd,
        generate_password fuel rnd length use_special = Some pwd ->
        Z.of_nat (String.length pwd) = length
        /\ any islower pwd = true
        /\ any isupper pwd = true
        /\ any isdigit pwd = true
        /\ (use_special = true -> any (fun ch => char_in ch specials) pwd = true))
  /\ (forall fuel rnd reply,
        cmd_gen int fuel rnd args = Some reply ->
        exists pwd,
          reply = ("🔐 " ++ pwd)%string
          /\ generate_password fuel rnd len true = Some pwd
          /\ Z.of_nat (String.length pwd) = len
          /\ any islower pwd = true
          /\ any isupper pwd = true
          /\ any isdigit pwd = true
          /\ any (fun ch => char_in ch specials) pwd = true)
  /\ (forall fuel rnd pwd,
        generate_password fuel rnd len true = Some pwd ->
        cmd_gen int fuel rnd args = Some ("🔐 " ++ pwd)%string).
Proof.
  intros len.
  assert (Hpw : forall fuel rnd length use_special pwd,
             generate_password fuel rnd length use_special = Some pwd ->
             Z.of_nat (String.length pwd) = length
             /\ any islower pwd = true
             /\ any isupper pwd = true
             /\ any isdigit pwd = true
             /\ (use_special = true -> any (fun ch => char_in ch specials) pwd = true)).
  { intros fuel rnd length use_special pwd Hgen.
    apply generate_password_from_ok in Hgen. destruct Hgen as [Hok Hlen].
    unfold password_ok in Hok.
    apply andb_prop in Hok. destruct Hok as [Hok Hsp].
    apply andb_prop in Hok. destruct Hok as [Hok Hdi].
    apply andb_prop in Hok. destruct Hok as [Hlo Hup].
    repeat split; try assumption.
    + apply any_nonempty in Hlo. lia.
    + intros ->. exact Hsp. }
  split; [|split; [|split; [|split; [|split; [|split]]]]].
  - subst len. unfold cmd_gen_length.
    destruct args as [|a rest]; [lia|]. destruct (int a); lia.
  - subst len. now intros ->.
  - subst len. intros a rest e -> Ha. cbn. now rewrite Ha.
  - subst len. intros a rest n -> Ha. cbn. rewrite Ha. lia.
  - exact Hpw.
  - intros fuel rnd reply. unfold cmd_gen. fold len.
    destruct (generate_password fuel rnd len true) as [pwd|] eqn:Hgen; [|discriminate].
    intros [= <-]. exists pwd.
    destruct (Hpw fuel rnd len true pwd Hgen) as (Hl & Hlo & Hup & Hdi & Hsp).
    repeat split; auto.
  - intros fuel rnd pwd Hgen. unfold cmd_gen. fold len. now rewrite Hgen.
Qed.

Lemma generated_password_spec_witness :
  cmd_gen_length decimal_int ["6"] = 6
  /\ cmd_gen_length decimal_int ["999"] = 64
  /\ cmd_gen_length decimal_int ["-3"] = 6
  /\ cmd_gen_length decimal_int ["abc"] = 16
  /\ cmd_gen_length decimal_int [] = 16
  /\ generate_password 2 sample_rnd 6 true = Some "AN0$?g"
  /\ Z.of_nat (String.length "AN0$?g") = 6
  /\ any islower "AN0$?g" = true
  /\ cmd_gen decimal_int 2 sample_rnd ["6"] = Some "🔐 AN0$?g"
  /\ (exists pwd, "🔐 AN0$?g" = ("🔐 " ++ pwd)%string
                  /\ Z.of_nat (String.length pwd) = cmd_gen_length decimal_int ["6"]).
Proof.
  pose proof (generated_password_spec decimal_int ["6"])
    as (_ & _ & _ & H6 & Hpw & Hcmd & Hreply).
  pose proof (generated_password_spec decimal_int ["999"]) as (_ & _ & _ & H999 & _).
  pose proof (generated_password_spec decimal_int ["-3"]) as (_ & _ & _ & Hneg & _).
  pose proof (generated_password_spec decimal_int ["abc"]) as (_ & _ & Habc & _).
  pose proof (generated_password_spec decimal_int []) as (_ & Hnil & _).
  assert (Hrun : generate_password 2 sample_rnd 6 true = Some "AN0$?g") by reflexivity.
  destruct (Hpw 2%nat sample_rnd 6 true "AN0$?g" Hrun) as (Hlen & Hlo & _).
  split; [|split; [|split; [|split; [|split; [|split; [|split; [|split; [|split]]]]]]]].
  - apply (proj1 (proj2 (H6 "6" [] 6 eq_refl eq_refl))). lia.
  - apply (proj2 (proj2 (H999 "999" [] 999 eq_refl eq_refl))). lia.
  - apply (proj1 (Hneg "-3" [] (-3) eq_refl eq_refl)). lia.
  - apply (Habc "abc" [] ValueError eq_refl eq_refl).
  - apply (Hnil eq_refl).
  - exact Hrun.
  - exact Hlen.
  - exact Hlo.
  - exact (Hreply 2%nat sample_rnd "AN0$?g" Hrun).
  - destruct (Hcmd 2%nat sample_rnd "🔐 AN0$?g" (Hreply 2%nat sample_rnd "AN0$?g" Hrun))
      as (pwd & Heq & _ & Hl & _).
    exists pwd. split; assumption.
Defined.

(* ================================================================== *)
(** * Further properties *)

(** ** The registry under storage failures *)

Lemma has_user_in_keys (uid : Z) (rows : list user_row) :
  has_user uid rows = true <-> In uid (user_keys rows).
Proof.
  unfold has_user, user_keys. rewrite existsb_exists, in_map_iff.
  split; intros [r [H1 H2]]; exists r.
  - apply Z.eqb_eq in H2. auto.
  - rewrite Z.eqb_eq. auto.
Qed.

Lemma with_user_keys_nodup (u : User) (t : Z) (rows : list user_row) :
  NoDup (user_keys rows) -> NoDup (user_keys (with_user u t rows)).
Proof.
  intros Hnd. unfold with_user.
  destruct (has_user (id u) rows) eqn:Hin; [exact Hnd|].
  unfold user_keys. rewrite map_app. cbn.
  apply NoDup_app; [exact Hnd | repeat constructor; intros [] |].
  intros a Ha [<-|[]]. apply has_user_in_keys in Ha. congruence.
Qed.

Lemma with_user_has_user (u : User) (t : Z) (rows : list user_row) :
  has_user (id u) (with_user u t rows) = true.
Proof.
  unfold with_user. destruct (has_user (id u) rows) eqn:Hin; [exact Hin|].
  apply (has_user_app_new (registered_as u t)).
Qed.

(** Every way [save_user] can end, by the place of the first storage
    failure. *)
Lemma save_user_outcomes (u : User) (w : world) :
  let w' := snd (save_user u w) in
  fst (save_user u w) = Ret tt
  /\ spam (db w') = spam (db w) /\ clock w' = clock w /\ bot_faults w' = bot_faults w
  /\ ((trace w' = trace w /\ users (db w') = with_user u (clock w) (users (db w)))
      \/ (trace w' = trace w ++ [LogWarning "save_user error"]
          /\ (users (db w') = users (db w)
              \/ users (db w') = with_user u (clock w) (users (db w))))).
Proof.
  destruct w as [[us sp] c sf bf tr].
  unfold save_user, with_user.
  destruct sf as [|[|[|[|[|k]]]] ks]; run_sqlite; unfold logger_warning, emit; cbn;
    destruct (has_user (id u) us); cbn; auto 10.
Qed.

(** X1: whatever the storage does, [save_user] returns normally, leaves
    the spam table alone and logs at most one warning; on a readable store it
    logs nothing and the user is registered afterwards. *)
Theorem save_user_contains_failures (u : User) (w : world) :
  let w' := snd (save_user u w) in
  fst (save_user u w) = Ret tt
  /\ spam (db w') = spam (db w)
  /\ (trace w' = trace w \/ trace w' = trace w ++ [LogWarning "save_user error"])
  /\ (sqlite_faults w = [] ->
      trace w' = trace w /\ has_user (id u) (users (db w')) = true).
Proof.
  destruct (save_user_outcomes u w) as (Hret & Hsp & _ & _ & Hcases).
  cbv zeta. split; [exact Hret|]. split; [exact Hsp|]. split.
  - destruct Hcases as [[Ht _]|[Ht _]]; auto.
  - intros Hq. rewrite save_user_quiet by assumption. split; [reflexivity|].
    apply (with_user_has_user u (clock w)).
Qed.

Lemma save_user_contains_failures_witness :
  trace (snd (save_user alice (world_at 0 []))) = []
  /\ has_user 7 (users (db (snd (save_user alice (world_at 0 []))))) = true.
Proof.
  exact (proj2 (proj2 (proj2 (save_user_contains_failures alice (world_at 0 [])))) eq_refl).
Defined.

(** X2: whatever the storage does, [save_user] keeps the keys of the
    users table pairwise distinct. *)
Theorem save_user_keeps_primary_key (u : User) (w : world) :
  NoDup (user_keys (users (db w))) ->
  NoDup (user_keys (users (db (snd (save_user u w))))).
Proof.
  intros Hnd.
  destruct (save_user_outcomes u w) as (_ & _ & _ & _ & Hcases).
  destruct Hcases as [[_ ->]|[_ [->| ->]]];
    auto using with_user_keys_nodup.
Qed.

Lemma save_user_keeps_primary_key_witness :
  NoDup (user_keys (users (db (snd (save_user alice (world_at 0 [])))))).
Proof.
  apply (save_user_keeps_primary_key alice (world_at 0 [])). constructor.
Defined.

(** ** Reading the registry *)

Lemma insert_key_perm (k : Z) (l : list Z) : Permutation (insert_key k l) (k :: l).
Proof.
  induction l as [|x l IH]; simpl; [apply Permutation_refl|].
  destruct (k <=? x); [apply Permutation_refl|].
  eapply perm_trans; [apply perm_skip, IH | apply perm_swap].
Qed.

Lemma sort_keys_perm (l : list Z) : Permutation (sort_keys l) l.
Proof.
  induction l as [|k l IH]; simpl; [constructor|].
  eapply perm_trans; [apply insert_key_perm | now apply perm_skip].
Qed.

Lemma insert_key_sorted (k : Z) (l : list Z) :
  Sorted Z.le l -> Sorted Z.le (insert_key k l).
Proof.
  induction 1 as [|x l Hs IH Hhd]; simpl; [repeat constructor|].
  destruct (k <=? x) eqn:E.
  - apply Z.leb_le in E. repeat constructor; assumption.
  - apply Z.leb_gt in E. constructor; [exact IH|].
    destruct l as [|y l]; simpl.
    + constructor. lia.
    + inversion Hhd; subst. destruct (k <=? y); constructor; lia.
Qed.

(** The keys come back in ascending order. *)
Lemma sort_keys_sorted (l : list Z) : Sorted Z.le (sort_keys l).
Proof.
  induction l as [|k l IH]; simpl; [constructor | now apply insert_key_sorted].
Qed.

Lemma get_all_user_ids_outcomes (w : world) :
  let r := get_all_user_ids w in
  db (snd r) = db w /\ trace (snd r) = trace w
  /\ (fst r = Ret (sort_keys (user_keys (users (db w))))
      \/ fst r = Raise OperationalError).
Proof.
  destruct w as [[us sp] c sf bf tr].
  unfold get_all_user_ids, select_user_ids, user_keys.
  destruct sf as [|[|[|[|k]]] ks]; run_sqlite; auto 10.
Qed.

Lemma get_all_user_ids_quiet (w : world) :
  sqlite_faults w = [] ->
  get_all_user_ids w = (Ret (sort_keys (user_keys (users (db w)))), w).
Proof.
  destruct w as [[us sp] c sf bf tr]; cbn [sqlite_faults]; intros ->. reflexivity.
Qed.

(** X3: [get_all_user_ids] only reads: whatever the storage does, the
    database and the trace are as before, and the call either returns the
    keys of the users table (a permutation of them: SQLite lists them
    ascending) or raises OperationalError, which it does not catch; on a
    readable store it returns. *)
Theorem get_all_user_ids_read_only (w : world) :
  let r := get_all_user_ids w in
  db (snd r) = db w /\ trace (snd r) = trace w
  /\ ((exists ids, fst r = Ret ids /\ Permutation ids (user_keys (users (db w))))
      \/ fst r = Raise OperationalError)
  /\ (sqlite_faults w = [] -> exists ids, fst r = Ret ids).
Proof.
  destruct (get_all_user_ids_outcomes w) as (Hdb & Htr & Hres).
  cbv zeta. split; [exact Hdb|]. split; [exact Htr|]. split.
  - destruct Hres as [H|H]; [left|right; exact H].
    eexists. split; [exact H | apply sort_keys_perm].
  - intros Hq. rewrite get_all_user_ids_quiet by assumption.
    eexists. reflexivity.
Qed.

Lemma get_all_user_ids_read_only_witness :
  exists ids,
    fst (get_all_user_ids (mkWorld (mkDb [alice_row; bob_row] []) 0 [] [] [])) = Ret ids.
Proof.
  exact (proj2 (proj2 (proj2 (get_all_user_ids_read_only
           (mkWorld (mkDb [alice_row; bob_row] []) 0 [] [] [])))) eq_refl).
Defined.

(** X4: on a readable store with distinct keys, a user who has just been
    saved is listed by [get_all_user_ids], exactly once. *)
Theorem saved_user_is_listed (u : User) (w : world) :
  sqlite_faults w = [] ->
  NoDup (user_keys (users (db w))) ->
  exists ids,
    fst (get_all_user_ids (snd (save_user u w))) = Ret ids
    /\ count_occ Z.eq_dec ids (id u) = 1%nat.
Proof.
  intros Hq Hnd.
  rewrite save_user_quiet by assumption. cbn [snd].
  rewrite get_all_user_ids_quiet by (destruct w; exact Hq).
  eexists. split; [reflexivity|]. cbn [fst db users set_db].
  fold (with_user u (clock w) (users (db w))).
  apply (proj1 (NoDup_count_occ' Z.eq_dec _)).
  - eapply Permutation_NoDup;
      [apply Permutation_sym, sort_keys_perm | now apply with_user_keys_nodup].
  - eapply Permutation_in; [apply Permutation_sym, sort_keys_perm|].
    apply has_user_in_keys, with_user_has_user.
Qed.

Lemma saved_user_is_listed_witness :
  exists ids,
    fst (get_all_user_ids
           (snd (save_user alice (mkWorld (mkDb [bob_row] []) 0 [] [] [])))) = Ret ids
    /\ count_occ Z.eq_dec ids 7 = 1%nat.
Proof.
  apply (saved_user_is_listed alice (mkWorld (mkDb [bob_row] []) 0 [] [] []) eq_refl).
  repeat constructor. intros [].
Defined.

(** ** The spam table under storage failures *)

(** Every way [spam_record_and_check] can end: nothing written (the call
    raised before the commit), or the evaluation committed (and the call
    returned the new count, or raised while closing). *)
Lemma spam_evaluation_outcomes (uid : Z) (w : world) :
  let r := spam_record_and_check uid w in
  let now := isoformat (Aware (clock w)) in
  users (db (snd r)) = users (db w)
  /\ trace (snd r) = trace w
  /\ ((spam (db (snd r)) = spam (db w)
       /\ (fst r = Raise OperationalError
           \/ (fst r = Raise TypeError
               /\ exists c t, fetch_spam uid (spam (db w)) = Some (c, IsoText (Naive t)))))
      \/ exists c,
           spam (db (snd r)) = evaluated uid c now (spam (db w))
           /\ (fst r = Ret c \/ fst r = Raise OperationalError)
           /\ (c = 1 \/ exists old ts, fetch_spam uid (spam (db w)) = Some (old, ts)
                                       /\ c = old + 1)).
Proof.
  destruct w as [[us sp] c0 sf bf tr].
  unfold spam_record_and_check, evaluated.
  destruct (fetch_spam uid sp) as [[old ts]|] eqn:Hrow.
  - destruct ts as [[last|last]| |];
      destruct sf as [|[|[|[|[|[|k]]]]] ks]; run_sqlite; rewrite ?Hrow; run_sqlite;
        try (destruct (total_seconds_gt (c0 - last) SPAM_WINDOW_SEC));
        try (destruct (total_seconds_gt (c0 - c0) SPAM_WINDOW_SEC));
        run_sqlite; rewrite ?Hrow; eauto 12.
  - destruct sf as [|[|[|[|[|[|k]]]]] ks]; run_sqlite; rewrite ?Hrow; run_sqlite;
      rewrite ?Hrow; eauto 12.
Qed.

Lemma fetch_spam_none_keys (uid : Z) (rows : list spam_row) :
  fetch_spam uid rows = None <-> ~ In uid (spam_keys rows).
Proof.
  unfold fetch_spam, spam_keys.
  induction rows as [|r rows IH]; simpl; [tauto|].
  destruct (s_user_id r =? uid) eqn:E.
  - apply Z.eqb_eq in E. split; [discriminate | tauto].
  - apply Z.eqb_neq in E. rewrite IH. tauto.
Qed.

Lemma update_rows_keys (uid c : Z) (ts : sql_text) (rows : list spam_row) :
  spam_keys (update_rows uid c ts rows) = spam_keys rows.
Proof.
  unfold spam_keys, update_rows. rewrite map_map.
  apply map_ext_in. intros r _.
  destruct (s_user_id r =? uid) eqn:E; [|reflexivity].
  apply Z.eqb_eq in E. now rewrite E.
Qed.

Lemma evaluated_keys_nodup (uid c : Z) (ts : sql_text) (rows : list spam_row) :
  NoDup (spam_keys rows) -> NoDup (spam_keys (evaluated uid c ts rows)).
Proof.
  intros Hnd. unfold evaluated.
  destruct (fetch_spam uid rows) eqn:Hrow.
  - now rewrite update_rows_keys.
  - unfold spam_keys. rewrite map_app. cbn.
    apply NoDup_app; [exact Hnd | repeat constructor; intros [] |].
    intros a Ha [<-|[]]. now apply fetch_spam_none_keys in Hrow.
Qed.

Lemma fetch_spam_app_other (uid uid' c : Z) (ts : sql_text) (rows : list spam_row) :
  uid' <> uid ->
  fetch_spam uid' (rows ++ [mkSpamRow uid c ts]) = fetch_spam uid' rows.
Proof.
  intros Hne. unfold fetch_spam.
  induction rows as [|r rows IH]; simpl.
  - destruct (uid =? uid') eqn:E; [apply Z.eqb_eq in E; congruence | reflexivity].
  - destruct (s_user_id r =? uid'); [reflexivity | exact IH].
Qed.

Lemma evaluated_other (uid uid' c : Z) (ts : sql_text) (rows : list spam_row) :
  uid' <> uid ->
  fetch_spam uid' (evaluated uid c ts rows) = fetch_spam uid' rows.
Proof.
  intros Hne. unfold evaluated. destruct (fetch_spam uid rows).
  - now apply fetch_spam_update_other.
  - now apply fetch_spam_app_other.
Qed.

Lemma fetch_spam_in (uid c : Z) (ts : sql_text) (rows : list spam_row) :
  fetch_spam uid rows = Some (c, ts) -> In (mkSpamRow uid c ts) rows.
Proof.
  unfold fetch_spam. destruct (find _ rows) as [r|] eqn:Hf; [|discriminate].
  intros [= <- <-]. apply find_some in Hf. destruct Hf as [Hin Hk].
  apply Z.eqb_eq in Hk. destruct r; cbn in *. now subst.
Qed.

Lemma evaluated_counts (uid c : Z) (ts : sql_text) (rows : list spam_row) :
  1 <= c ->
  Forall (fun r => 1 <= s_count r) rows ->
  Forall (fun r => 1 <= s_count r) (evaluated uid c ts rows).
Proof.
  intros Hc Hall. unfold evaluated. destruct (fetch_spam uid rows).
  - unfold update_rows. apply Forall_map.
    eapply Forall_impl; [|exact Hall]. intros r Hr.
    now destruct (s_user_id r =? uid).
  - apply Forall_app. split; [exact Hall | now repeat constructor].
Qed.

(** X5: whatever the storage does, an evaluation for [uid] leaves the
    users table, the trace and the spam row of every other user as they
    were. *)
Theorem spam_evaluation_frame (uid : Z) (w : world) :
  let w' := snd (spam_record_and_check uid w) in
  users (db w') = users (db w)
  /\ trace w' = trace w
  /\ forall uid', uid' <> uid ->
       fetch_spam uid' (spam (db w')) = fetch_spam uid' (spam (db w)).
Proof.
  destruct (spam_evaluation_outcomes uid w) as (Hus & Htr & Hcases).
  cbv zeta. split; [exact Hus|]. split; [exact Htr|].
  intros uid' Hne.
  destruct Hcases as [[-> _]|[c [-> _]]]; [reflexivity | now apply evaluated_other].
Qed.

Lemma spam_evaluation_frame_witness :
  fetch_spam 8 (spam (db (snd (spam_record_and_check 7 w_two_users))))
  = Some (2, IsoText (Aware (29 * SECOND))).
Proof.
  rewrite (proj2 (proj2 (spam_evaluation_frame 7 w_two_users)) 8).
  - reflexivity.
  - discriminate.
Defined.

(** X6: whatever the storage does, an evaluation keeps the keys of the
    spam table pairwise distinct, and its plain INSERT never collides with an
    existing row: no evaluation ends in IntegrityError, whatever the table
    holds. *)
Theorem spam_evaluation_keeps_primary_key (uid : Z) (w : world) :
  (NoDup (spam_keys (spam (db w))) ->
   NoDup (spam_keys (spam (db (snd (spam_record_and_check uid w))))))
  /\ fst (spam_record_and_check uid w) <> Raise IntegrityError.
Proof.
  destruct (spam_evaluation_outcomes uid w) as (_ & _ & Hcases).
  split.
  - intros Hnd.
    destruct Hcases as [[-> _]|[c [-> _]]]; [exact Hnd | now apply evaluated_keys_nodup].
  - destruct Hcases as [[_ [H|[H _]]]|[c (_ & [H|H] & _)]]; rewrite H; discriminate.
Qed.

Lemma spam_evaluation_keeps_primary_key_witness :
  NoDup (spam_keys (spam (db (snd (spam_record_and_check 9 w_two_users)))))
  /\ fst (spam_record_and_check 9 w_two_users) <> Raise IntegrityError.
Proof.
  split.
  - apply (proj1 (spam_evaluation_keeps_primary_key 9 w_two_users)).
    repeat constructor; cbn; intuition discriminate.
  - exact (proj2 (spam_evaluation_keeps_primary_key 9 w_two_users)).
Defined.

(** X7: when every stored count is at least 1, it is so after an
    evaluation too, whatever the storage does, and a returned count is at
    least 1. *)
Theorem spam_counts_stay_positive (uid : Z) (w : world) :
  Forall (fun r => 1 <= s_count r) (spam (db w)) ->
  Forall (fun r => 1 <= s_count r) (spam (db (snd (spam_record_and_check uid w))))
  /\ forall cnt, fst (spam_record_and_check uid w) = Ret cnt -> 1 <= cnt.
Proof.
  intros Hall.
  destruct (spam_evaluation_outcomes uid w) as (_ & _ & Hcases).
  assert (Hc : forall c, (c = 1 \/ exists old ts,
                 fetch_spam uid (spam (db w)) = Some (old, ts) /\ c = old + 1) -> 1 <= c).
  { intros c [->|(old & ts & Hrow & ->)]; [lia|].
    apply fetch_spam_in in Hrow.
    rewrite Forall_forall in Hall. specialize (Hall _ Hrow). cbn in Hall. lia. }
  destruct Hcases as [[-> Hres]|[c (-> & Hres & Hrel)]].
  - split; [exact Hall|]. intros cnt Hcnt.
    destruct Hres as [H|[H _]]; congruence.
  - split; [apply evaluated_counts; auto|].
    intros cnt Hcnt. destruct Hres as [H|H]; [|congruence].
    assert (cnt = c) by congruence. subst. auto.
Qed.

Lemma spam_counts_stay_positive_witness :
  Forall (fun r => 1 <= s_count r) (spam (db (snd (spam_record_and_check 7 w_two_users))))
  /\ 1 <= 5.
Proof.
  assert (Hall : Forall (fun r => 1 <= s_count r) (spam (db w_two_users)))
    by (repeat constructor; cbn; discriminate).
  destruct (spam_counts_stay_positive 7 w_two_users Hall) as [Hrows Hret].
  split; [exact Hrows | exact (Hret 5 eq_refl)].
Defined.

(** X8: a stored timestamp without time zone is not survived: the
    subtraction now - last stands outside the try, so on a readable store
    the evaluation of a user whose row carries such a timestamp raises
    TypeError, whatever the count, and writes nothing; every later message
    of that user fails the same way. *)
Theorem naive_timestamp_is_not_survived (uid c t : Z) (w : world) :
  sqlite_faults w = [] ->
  fetch_spam uid (spam (db w)) = Some (c, IsoText (Naive t)) ->
  spam_record_and_check uid w = (Raise TypeError, w)
  /\ forall t', spam_record_and_check uid (set_clock t' w) = (Raise TypeError, set_clock t' w).
Proof.
  intros Hq Hrow.
  assert (H : forall w', sqlite_faults w' = [] ->
                fetch_spam uid (spam (db w')) = Some (c, IsoText (Naive t)) ->
                spam_record_and_check uid w' = (Raise TypeError, w')).
  { intros [[us sp] c0 sf bf tr]; cbn; intros -> Hrow'.
    unfold spam_record_and_check. run_sqlite. rewrite Hrow'. reflexivity. }
  split; [now apply H|].
  intros t'. apply H; destruct w; assumption.
Qed.

Lemma naive_timestamp_is_not_survived_witness :
  spam_record_and_check 7 w_naive = (Raise TypeError, w_naive).
Proof.
  exact (proj1 (naive_timestamp_is_not_survived 7 4 0 w_naive eq_refl eq_refl)).
Defined.

(** ** The spam action under platform failures *)

(** X9: whatever the platform does and whatever the update lacks,
    [handle_spam_action] returns normally and leaves the database alone, and
    what it adds to the trace is one of: the log line alone; the warning and
    the log line; the warning and then the restriction.  A restriction is
    never applied without the warning before it. *)
Theorem handle_spam_action_shapes (update : Update) (cnt : Z) (w : world) :
  let r := handle_spam_action update cnt w in
  fst r = Ret tt
  /\ db (snd r) = db w
  /\ exists new,
       trace (snd r) = trace w ++ new
       /\ (new = [LogWarning "mute failed"]
           \/ new = [ReplyText SPAM_WARNING; LogWarning "mute failed"]
           \/ exists c u,
                effective_chat update = Some c /\ effective_user update = Some u
                /\ new = [ReplyText SPAM_WARNING;
                          RestrictChatMember (chat_id c) (id u) false
                            (Some (Aware (clock w + timedelta_minutes 10)))]).
Proof.
  destruct w as [d t sf bf tr]. destruct update as [[u|] [c|] [m|]];
    unfold handle_spam_action, try_except, bind, reply_text, restrict_chat_member,
           logger_warning, emit, bot_call;
    destruct bf as [|[|[|k]] ks]; cbn;
      (split; [reflexivity|]; split; [reflexivity|]);
      eexists; (split; [rewrite <- ?app_assoc; reflexivity|]); cbn; eauto 8.
Qed.

(** X10: when the platform refuses the warning reply, no restriction is
    attempted: the only effect of [handle_spam_action] is the log line. *)
Theorem unsent_warning_means_no_mute (update : Update) (m : Message) (cnt : Z)
        (w : world) (ks : schedule) :
  message update = Some m ->
  bot_faults w = 0%nat :: ks ->
  handle_spam_action update cnt w =
    (Ret tt, set_trace (trace w ++ [LogWarning "mute failed"]) (set_bot_faults ks w)).
Proof.
  destruct w as [d t sf bf tr]. destruct update as [u c m'].
  cbn. intros -> ->. reflexivity.
Qed.

Lemma unsent_warning_means_no_mute_witness :
  handle_spam_action (hello_from (Some alice)) 6 w_refusing =
    (Ret tt,
     mkWorld (mkDb [] [mkSpamRow 7 5 (IsoText (Aware 0))]) (1 * SECOND) [] []
             [LogWarning "mute failed"]).
Proof.
  exact (unsent_warning_means_no_mute (hello_from (Some alice))
           (mkMessage (Some "Hello there")) 6 w_refusing [] eq_refl eq_refl).
Defined.

(** ** The keyword auto-reply *)

Lemma prefix_spec (k txt : string) :
  prefix k txt = true <-> exists b, txt = (k ++ b)%string.
Proof.
  revert txt. induction k as [|c k IH]; intros txt; simpl.
  - split; [intros _; now exists txt | intros _; now destruct txt].
  - destruct txt as [|c' txt]; simpl;
      [split; [discriminate | intros [b H]; discriminate]|].
    destruct (Ascii.ascii_dec c c') as [<-|Hne].
    + rewrite IH. split; intros [b H]; exists b; congruence.
    + split; [discriminate | intros [b H]; congruence].
Qed.

(** [contains] is the substring test. *)
Lemma contains_spec (k txt : string) :
  contains k txt = true <-> is_substring k txt.
Proof.
  unfold is_substring.
  induction txt as [|c txt IH]; cbn [contains].
  - rewrite orb_false_r, prefix_spec. split.
    + intros [b H]. exists EmptyString, b. exact H.
    + intros [a [b H]]. destruct a; [now exists b | discriminate].
  - rewrite orb_true_iff, prefix_spec, IH. split.
    + intros [[b H]|[a [b H]]].
      * exists EmptyString, b. exact H.
      * exists (String c a), b. simpl. now rewrite H.
    + intros [a [b H]]. destruct a as [|c' a]; simpl in H.
      * left. now exists b.
      * right. exists a, b. congruence.
Qed.

Lemma first_reply_in (items : list (string * string)) (txt v : string) :
  first_reply items txt = Some v -> exists k, In (k, v) items /\ contains k txt = true.
Proof.
  induction items as [|[k' v'] items IH]; simpl; [discriminate|].
  destruct (contains k' txt) eqn:E.
  - intros [= <-]. exists k'. auto.
  - intros H. destruct (IH H) as [k [Hin Hc]]. exists k. auto.
Qed.

Lemma auto_reply_handler_run (u : option User) (c : option Chat) (m : Message) (w : world) :
  bot_faults w = [] ->
  auto_reply_handler (mkUpdate u c (Some m)) w =
    (Ret tt,
     set_trace (trace w ++ match first_reply replies (lower (or_empty (text m))) with
                           | Some v => [ReplyText v]
                           | None => []
                           end) w).
Proof.
  destruct w as [d t sf bf tr]; cbn [bot_faults trace]; intros ->.
  unfold auto_reply_handler, bind; cbn -[first_reply replies lower].
  destruct (first_reply replies (lower (or_empty (text m)))) as [v|].
  - reflexivity.
  - unfold ret, set_trace; cbn -[first_reply replies lower]. now rewrite app_nil_r.
Qed.

(** X11: for an ASCII text, on a platform that accepts the call, the
    auto-reply goes by the first keyword, in the order hi, hello, how are
    you, help, that occurs in the lowercased text; it sends that keyword's
    answer and nothing else, and without any keyword in the text it does
    nothing. *)
Theorem auto_reply_first_match (u : option User) (c : option Chat) (m : Message) (w : world) :
  is_ascii (or_empty (text m)) = true ->
  bot_faults w = [] ->
  let txt := lower (or_empty (text m)) in
  let replied v := auto_reply_handler (mkUpdate u c (Some m)) w =
                   (Ret tt, set_trace (trace w ++ [ReplyText v]) w) in
  (is_substring "hi" txt -> replied "Hello! 👋")
  /\ (~ is_substring "hi" txt -> is_substring "hello" txt -> replied "Hi there 😊")
  /\ (~ is_substring "hi" txt -> ~ is_substring "hello" txt ->
      is_substring "how are you" txt -> replied "I'm fine — thanks!")
  /\ (~ is_substring "hi" txt -> ~ is_substring "hello" txt ->
      ~ is_substring "how are you" txt -> is_substring "help" txt ->
      replied "Use /help to see available commands.")
  /\ (~ is_substring "hi" txt -> ~ is_substring "hello" txt ->
      ~ is_substring "how are you" txt -> ~ is_substring "help" txt ->
      auto_reply_handler (mkUpdate u c (Some m)) w = (Ret tt, w)).
Proof.
  intros _ Hq txt replied. subst replied. cbv beta.
  rewrite (auto_reply_handler_run u c m w Hq). fold txt.
  unfold replies. cbn [first_reply].
  rewrite <- !contains_spec.
  destruct (contains "hi" txt); destruct (contains "hello" txt);
    destruct (contains "how are you" txt); destruct (contains "help" txt);
    repeat split; intros; try congruence;
    try (exfalso; auto; fail);
    destruct w; cbn; now rewrite ?app_nil_r.
Qed.

Lemma auto_reply_first_match_witness :
  auto_reply_handler (hello_from None) (world_at 0 []) =
    (Ret tt, set_trace [ReplyText "Hi there 😊"] (world_at 0 []))
  /\ auto_reply_handler (mkUpdate None None (Some (mkMessage (Some "THIS one"))))
       (world_at 0 []) =
    (Ret tt, set_trace [ReplyText "Hello! 👋"] (world_at 0 [])).
Proof.
  split.
  - apply (proj1 (proj2 (auto_reply_first_match None (Some (mkChat 100))
                           (mkMessage (Some "Hello there")) (world_at 0 [])
                           eq_refl eq_refl))).
    + rewrite <- contains_spec. vm_compute. discriminate.
    + rewrite <- contains_spec. reflexivity.
  - apply (proj1 (auto_reply_first_match None None
                    (mkMessage (Some "THIS one")) (world_at 0 []) eq_refl eq_refl)).
    rewrite <- contains_spec. reflexivity.
Defined.

Lemma lower_ascii_idempotent (ch : ascii) : lower_ascii (lower_ascii ch) = lower_ascii ch.
Proof.
  destruct ch as [[] [] [] [] [] [] [] []]; vm_compute; reflexivity.
Qed.

Lemma lower_idempotent (s : string) : lower (lower s) = lower s.
Proof.
  induction s as [|ch s IH]; simpl; [reflexivity|].
  now rewrite lower_ascii_idempotent, IH.
Qed.

(** X12: the auto-reply does not look at the case of ASCII letters: a
    text and its lowercased form are answered alike, whatever the world. *)
Theorem auto_reply_ignores_case (u : option User) (c : option Chat) (s : string) (w : world) :
  auto_reply_handler (mkUpdate u c (Some (mkMessage (Some (lower s))))) w =
  auto_reply_handler (mkUpdate u c (Some (mkMessage (Some s)))) w.
Proof.
  unfold auto_reply_handler, bind, attr, ret. cbn [message text or_empty].
  now rewrite lower_idempotent.
Qed.

(** ** The other branches of the pipeline *)

(** X13: when the evaluation returns a count below SPAM_LIMIT for a
    message with a sender and an ASCII text, and the platform accepts the
    calls, the pipeline returns normally; after the evaluation it adds to the
    trace at most one auto-reply, taken from the table for a keyword that
    occurs in the lowercased text, and then the auto-delete task; it neither
    warns nor restricts. *)
Theorem pipeline_below_limit (u : User) (c : option Chat) (m : Message) (w : world) (cnt : Z) :
  let update := mkUpdate (Some u) c (Some m) in
  is_ascii (or_empty (text m)) = true ->
  bot_faults w = [] ->
  let w1 := snd (save_user u w) in
  fst (spam_record_and_check (id u) w1) = Ret cnt ->
  cnt < SPAM_LIMIT ->
  let w2 := snd (spam_record_and_check (id u) w1) in
  exists new,
    pipeline_handlers update w =
      (Ret tt, set_trace (trace w2 ++ new ++ [CreateTaskAutoDelete AUTO_DELETE_SECONDS]) w2)
    /\ (new = []
        \/ exists k v, In (k, v) replies
                       /\ is_substring k (lower (or_empty (text m)))
                       /\ new = [ReplyText v]).
Proof.
  intros update _ Hbot w1 Hcnt Hlim w2.
  destruct (save_user_offline u w) as [B1 _].
  destruct (spam_record_and_check_offline (id u) w1) as [B2 _].
  fold w1 in B1. fold w2 in B2.
  rewrite (pipeline_after_evaluation update u w cnt eq_refl Hcnt). fold w1 w2.
  destruct (cnt >=? SPAM_LIMIT) eqn:E; [rewrite Z.geb_leb, Z.leb_le in E; lia|].
  unfold bind. subst update.
  assert (Hq2 : bot_faults w2 = []) by congruence. clearbody w2.
  rewrite (auto_reply_handler_run (Some u) c m w2 Hq2).
  destruct (first_reply replies (lower (or_empty (text m)))) as [v|] eqn:Hf.
  - exists [ReplyText v]. split.
    + destruct w2; unfold create_task_auto_delete, emit, set_trace; cbn.
      now rewrite <- app_assoc.
    + right. destruct (first_reply_in _ _ _ Hf) as [k [Hin Hc]].
      exists k, v. rewrite <- contains_spec. auto.
  - exists []. split; [|now left].
    destruct w2; unfold create_task_auto_delete, emit, set_trace; cbn.
    now rewrite app_nil_r.
Qed.

Lemma pipeline_below_limit_witness :
  exists new,
    pipeline_handlers (hello_from (Some alice)) (world_at 0 []) =
      (Ret tt,
       mkWorld (mkDb [alice_row] [mkSpamRow 7 1 (IsoText (Aware 0))]) 0 [] []
               (new ++ [CreateTaskAutoDelete 12]))
    /\ (new = []
        \/ exists k v, In (k, v) replies
                       /\ is_substring k "hello there" /\ new = [ReplyText v]).
Proof.
  apply (pipeline_below_limit alice (Some (mkChat 100)) (mkMessage (Some "Hello there"))
           (world_at 0 []) 1 eq_refl eq_refl eq_refl eq_refl).
Defined.

(** X14: an update with a sender but without a message object (an
    edited message) is still counted; below SPAM_LIMIT the pipeline then
    raises AttributeError with the count already stored, and from
    SPAM_LIMIT on it returns normally having only logged that the mute
    failed: such a sender is neither warned nor restricted. *)
Theorem pipeline_without_message (u : User) (c : option Chat) (w : world) (cnt : Z) :
  let update := mkUpdate (Some u) c None in
  let w1 := snd (save_user u w) in
  fst (spam_record_and_check (id u) w1) = Ret cnt ->
  let w2 := snd (spam_record_and_check (id u) w1) in
  (cnt < SPAM_LIMIT -> pipeline_handlers update w = (Raise AttributeError, w2))
  /\ (cnt >= SPAM_LIMIT ->
      pipeline_handlers update w =
        (Ret tt, set_trace (trace w2 ++ [LogWarning "mute failed"]) w2)).
Proof.
  intros update w1 Hcnt w2.
  rewrite (pipeline_after_evaluation update u w cnt eq_refl Hcnt). fold w1 w2.
  split; intros Hlim.
  - destruct (cnt >=? SPAM_LIMIT) eqn:E; [rewrite Z.geb_leb, Z.leb_le in E; lia|].
    reflexivity.
  - destruct (cnt >=? SPAM_LIMIT) eqn:E; [|rewrite Z.geb_leb, Z.leb_gt in E; lia].
    reflexivity.
Qed.

Lemma pipeline_without_message_witness :
  pipeline_handlers (mkUpdate (Some alice) None None) (world_at 0 []) =
    (Raise AttributeError,
     mkWorld (mkDb [alice_row] [mkSpamRow 7 1 (IsoText (Aware 0))]) 0 [] [] [])
  /\ pipeline_handlers (mkUpdate (Some alice) None None) w_flood =
    (Ret tt,
     mkWorld (mkDb [mkUserRow 7 "alice" "Alice" "" (IsoText (Aware (1 * SECOND)))]
                   [mkSpamRow 7 6 (IsoText (Aware (1 * SECOND)))])
             (1 * SECOND) [] [] [LogWarning "mute failed"]).
Proof.
  split.
  - apply (proj1 (pipeline_without_message alice None (world_at 0 []) 1 eq_refl)).
    reflexivity.
  - apply (proj2 (pipeline_without_message alice None w_flood 6 eq_refl)).
    vm_compute. discriminate.
Defined.

(** ** The characters of a password *)

Lemma list_ascii_length (s : string) :
  List.length (list_ascii_of_string s) = String.length s.
Proof. induction s; simpl; congruence. Qed.

Lemma char_in_spec (ch : ascii) (s : string) :
  char_in ch s = true <-> In ch (list_ascii_of_string s).
Proof.
  unfold char_in. rewrite existsb_exists. split.
  - intros [x [Hin Heq]]. apply Ascii.eqb_eq in Heq. now subst.
  - intros Hin. exists ch. split; [exact Hin | apply Ascii.eqb_refl].
Qed.

Lemma choice_in (seq : string) (r : nat) :
  (0 < String.length seq)%nat -> char_in (choice seq r) seq = true.
Proof.
  intros Hlen. apply char_in_spec. unfold choice. apply nth_In.
  rewrite list_ascii_length. now apply Nat.mod_upper_bound, Nat.neq_0_lt_0.
Qed.

Lemma draw_chars (alphabet : string) (rnd : nat -> nat) (n pos : nat) :
  (0 < String.length alphabet)%nat ->
  Forall (fun ch => char_in ch alphabet = true)
         (list_ascii_of_string (draw alphabet rnd pos n)).
Proof.
  intros Hlen. revert pos.
  induction n as [|n IH]; intros pos; simpl; constructor; auto using choice_in.
Qed.

Lemma generate_password_from_drawn (rnd : nat -> nat) (length : Z) (use_special : bool)
      (fuel : nat) :
  forall (pos : nat) (pwd : string),
    generate_password_from fuel rnd pos length use_special = Some pwd ->
    exists pos', pwd = draw (password_alphabet use_special) rnd pos' (Z.to_nat length).
Proof.
  induction fuel as [|fuel IH]; intros pos pwd; simpl; [discriminate|].
  destruct (password_ok use_special _).
  - intros [= <-]. now exists pos.
  - apply IH.
Qed.

Lemma plain_char_is_not_special (ch : ascii) :
  char_in ch (password_alphabet false) = true -> char_in ch specials = false.
Proof.
  destruct ch as [[] [] [] [] [] [] [] []]; vm_compute; congruence.
Qed.

(** X15: a password that [generate_password] returns is made of
    characters of its alphabet only (letters, digits and, when enabled, the
    special set); with use_special off it contains no special character. *)
Theorem generated_password_alphabet (fuel : nat) (rnd : nat -> nat) (length : Z)
        (use_special : bool) (pwd : string) :
  generate_password fuel rnd length use_special = Some pwd ->
  Forall (fun ch => char_in ch (password_alphabet use_special) = true)
         (list_ascii_of_string pwd)
  /\ (use_special = false -> any (fun ch => char_in ch specials) pwd = false).
Proof.
  intros Hgen. apply generate_password_from_drawn in Hgen. destruct Hgen as [pos ->].
  assert (Hall : Forall (fun ch => char_in ch (password_alphabet use_special) = true)
                   (list_ascii_of_string
                      (draw (password_alphabet use_special) rnd pos (Z.to_nat length)))).
  { apply draw_chars. destruct use_special; vm_compute; lia. }
  split; [exact Hall|].
  intros ->. unfold any.
  induction Hall as [|ch l Hch _ IH]; simpl; [reflexivity|].
  now rewrite (plain_char_is_not_special ch Hch).
Qed.

Lemma generated_password_alphabet_witness :
  generate_password 1 lucky_rnd 5 false = Some "aA0aa"
  /\ any (fun ch => char_in ch specials) "aA0aa" = false.
Proof.
  assert (Hrun : generate_password 1 lucky_rnd 5 false = Some "aA0aa") by reflexivity.
  split; [exact Hrun|].
  exact (proj2 (generated_password_alphabet 1 lucky_rnd 5 false "aA0aa" Hrun) eq_refl).
Defined.

Lemma classes_disjoint (ch : ascii) :
  (Nat.b2n (islower ch) + Nat.b2n (isupper ch) + Nat.b2n (isdigit ch)
   + Nat.b2n (char_in ch specials) <= 1)%nat.
Proof.
  destruct ch as [[] [] [] [] [] [] [] []]; vm_compute; lia.
Qed.

Lemma existsb_tally (p : ascii -> bool) (l : list ascii) :
  existsb p l = true -> (1 <= tally p l)%nat.
Proof.
  unfold tally. induction l as [|ch l IH]; simpl; [discriminate|].
  destruct (p ch); simpl; [lia | exact IH].
Qed.

Lemma tally_classes (l : list ascii) :
  (tally islower l + tally isupper l + tally isdigit l
   + tally (fun ch => char_in ch specials) l <= List.length l)%nat.
Proof.
  unfold tally. induction l as [|ch l IH]; simpl; [lia|].
  pose proof (classes_disjoint ch) as Hd.
  destruct (islower ch), (isupper ch), (isdigit ch), (char_in ch specials);
    simpl in *; lia.
Qed.

Lemma password_ok_length (use_special : bool) (pwd : string) :
  password_ok use_special pwd = true ->
  ((if use_special then 4 else 3) <= String.length pwd)%nat.
Proof.
  unfold password_ok, any. intros Hok.
  apply andb_prop in Hok. destruct Hok as [Hok Hsp].
  apply andb_prop in Hok. destruct Hok as [Hok Hdi].
  apply andb_prop in Hok. destruct Hok as [Hlo Hup].
  apply existsb_tally in Hlo, Hup, Hdi.
  pose proof (tally_classes (list_ascii_of_string pwd)) as Hsum.
  rewrite list_ascii_length in Hsum.
  destruct use_special; simpl in Hsp; [apply existsb_tally in Hsp|]; lia.
Qed.

(** X16: [generate_password] can return exactly for the lengths that
    have room for one character of each required class: at least 4 with
    special characters, at least 3 without.  For a shorter length no random
    source and no number of attempts makes the loop return. *)
Theorem generate_password_returns_iff (length : Z) (use_special : bool) :
  (exists fuel rnd pwd, generate_password fuel rnd length use_special = Some pwd)
  <-> (if use_special then 4 else 3) <= length.
Proof.
  split.
  - intros (fuel & rnd & pwd & Hgen).
    apply generate_password_from_ok in Hgen. destruct Hgen as [Hok Hlen].
    apply password_ok_length in Hok. rewrite Hlen in Hok.
    destruct use_special; lia.
  - intros Hlen. exists 1%nat, lucky_rnd.
    unfold generate_password. cbn [generate_password_from].
    destruct use_special.
    + destruct (Z.to_nat length) as [|[|[|[|n]]]] eqn:E; try lia.
      eexists. cbn [draw]. reflexivity.
    + destruct (Z.to_nat length) as [|[|[|n]]] eqn:E; try lia.
      eexists. cbn [draw]. reflexivity.
Qed.

Lemma generate_password_returns_iff_witness :
  (exists fuel rnd pwd, generate_password fuel rnd 6 true = Some pwd)
  /\ 4 <= 6.
Proof.
  split.
  - apply (proj2 (generate_password_returns_iff 6 true)). vm_compute. discriminate.
  - apply (proj1 (generate_password_returns_iff 6 true)).
    exists 2%nat, sample_rnd, "AN0$?g". reflexivity.
Defined.

(** ** The moderation commands *)

Ltac run_cmd :=
  unfold Cmd.cmd_ban, Cmd.cmd_kick, Cmd.cmd_mute, Cmd.cmd_unmute,
         Cmd.cbind, Cmd.ctry, Cmd.cattr, Cmd.cret, Cmd.craise,
         Cmd.reply_text, Cmd.ban_chat_member, Cmd.unban_chat_member,
         Cmd.restrict_chat_member, Cmd.send_message, Cmd.api_call.

(** X17: a ban, kick, mute or unmute command from anyone but the
    administrator does nothing at all: no platform call, no reply, no change
    of the session. *)
Theorem moderation_requires_admin (ADMIN_ID : Z) (mention_html : User -> string)
        (str_exn : exn -> string) (update : Cmd.Update) (u : User) (s : Cmd.session) :
  Cmd.effective_user update = Some u ->
  id u <> ADMIN_ID ->
  Cmd.cmd_ban ADMIN_ID mention_html str_exn update s = (Ret tt, s)
  /\ Cmd.cmd_kick ADMIN_ID mention_html str_exn update s = (Ret tt, s)
  /\ Cmd.cmd_mute ADMIN_ID mention_html str_exn update s = (Ret tt, s)
  /\ Cmd.cmd_unmute ADMIN_ID mention_html str_exn update s = (Ret tt, s).
Proof.
  intros Hu Hne. apply Z.eqb_neq in Hne.
  repeat split; run_cmd; rewrite Hu, Hne; reflexivity.
Qed.

Lemma moderation_requires_admin_witness :
  Cmd.cmd_ban 1 sample_mention sample_str_exn
    (admin_reply alice (mkChat 100) (Some bob)) (session_with [] []) =
    (Ret tt, session_with [] []).
Proof.
  apply (moderation_requires_admin 1 sample_mention sample_str_exn
           (admin_reply alice (mkChat 100) (Some bob)) alice (session_with [] []) eq_refl).
  discriminate.
Defined.

(** X18: a moderation command of the administrator that is not a reply
    to a message is exactly its usage reply, whatever the platform does: it
    makes no moderation call, also when that reply is refused.  On a platform
    that accepts the call the usage line is what is journalled. *)
Theorem moderation_needs_target (ADMIN_ID : Z) (mention_html : User -> string)
        (str_exn : exn -> string) (update : Cmd.Update) (u : User) (m : Cmd.Message)
        (s : Cmd.session) :
  Cmd.effective_user update = Some u ->
  id u = ADMIN_ID ->
  Cmd.message update = Some m ->
  Cmd.reply_to_message m = None ->
  (Cmd.cmd_ban ADMIN_ID mention_html str_exn update s =
     Cmd.reply_text m "Reply to a user to ban." None s
   /\ Cmd.cmd_kick ADMIN_ID mention_html str_exn update s =
     Cmd.reply_text m "Reply to a user to kick." None s
   /\ Cmd.cmd_mute ADMIN_ID mention_html str_exn update s =
     Cmd.reply_text m "Reply to a user to mute." None s
   /\ Cmd.cmd_unmute ADMIN_ID mention_html str_exn update s =
     Cmd.reply_text m "Reply to a user to unmute." None s)
  /\ (forall txt,
        Cmd.journal (snd (Cmd.reply_text m txt None s)) = Cmd.journal s
        \/ Cmd.journal (snd (Cmd.reply_text m txt None s))
           = Cmd.journal s ++ [Cmd.Reply txt None])
  /\ (bot_faults (Cmd.base s) = [] ->
      Cmd.cmd_ban ADMIN_ID mention_html str_exn update s =
        (Ret tt, journalled s [Cmd.Reply "Reply to a user to ban." None])
      /\ Cmd.cmd_kick ADMIN_ID mention_html str_exn update s =
        (Ret tt, journalled s [Cmd.Reply "Reply to a user to kick." None])
      /\ Cmd.cmd_mute ADMIN_ID mention_html str_exn update s =
        (Ret tt, journalled s [Cmd.Reply "Reply to a user to mute." None])
      /\ Cmd.cmd_unmute ADMIN_ID mention_html str_exn update s =
        (Ret tt, journalled s [Cmd.Reply "Reply to a user to unmute." None])).
Proof.
  intros Hu Hid Hm Hr. apply Z.eqb_eq in Hid.
  assert (Hrun :
    Cmd.cmd_ban ADMIN_ID mention_html str_exn update s =
      Cmd.reply_text m "Reply to a user to ban." None s
    /\ Cmd.cmd_kick ADMIN_ID mention_html str_exn update s =
      Cmd.reply_text m "Reply to a user to kick." None s
    /\ Cmd.cmd_mute ADMIN_ID mention_html str_exn update s =
      Cmd.reply_text m "Reply to a user to mute." None s
    /\ Cmd.cmd_unmute ADMIN_ID mention_html str_exn update s =
      Cmd.reply_text m "Reply to a user to unmute." None s).
  { repeat split;
      unfold Cmd.cmd_ban, Cmd.cmd_kick, Cmd.cmd_mute, Cmd.cmd_unmute,
             Cmd.cbind, Cmd.cattr, Cmd.cret;
      rewrite Hu, Hid, Hm, Hr; reflexivity. }
  split; [exact Hrun|]. split.
  - intros txt. unfold Cmd.reply_text, Cmd.api_call.
    destruct (tick (bot_faults (Cmd.base s))) as [[] sch]; cbn; auto.
  - intros Hq. destruct Hrun as (-> & -> & -> & ->).
    destruct s as [[d t sf bf tr] j]. cbn in Hq. subst bf.
    repeat split.
Qed.

Lemma moderation_needs_target_witness :
  Cmd.cmd_mute 1 sample_mention sample_str_exn
    (Cmd.mkCmdUpdate (Some root) (Some (mkChat 100)) (Some (Cmd.mkCmdMessage None)) None)
    (session_with [] []) =
    (Ret tt, Cmd.mkSession (mkWorld (mkDb [] []) 0 [] [] [])
               [Cmd.Reply "Reply to a user to mute." None])
  /\ Cmd.cmd_ban 1 sample_mention sample_str_exn
    (Cmd.mkCmdUpdate (Some root) (Some (mkChat 100)) (Some (Cmd.mkCmdMessage None)) None)
    (session_with [] [0%nat]) =
    (Raise TelegramError, session_with [] []).
Proof.
  split.
  - apply (proj2 (proj2 (moderation_needs_target 1 sample_mention sample_str_exn
           (Cmd.mkCmdUpdate (Some root) (Some (mkChat 100))
              (Some (Cmd.mkCmdMessage None)) None)
           root (Cmd.mkCmdMessage None) (session_with [] [])
           eq_refl eq_refl eq_refl eq_refl)) eq_refl).
  - rewrite (proj1 (proj1 (moderation_needs_target 1 sample_mention sample_str_exn
           (Cmd.mkCmdUpdate (Some root) (Some (mkChat 100))
              (Some (Cmd.mkCmdMessage None)) None)
           root (Cmd.mkCmdMessage None) (session_with [] [0%nat])
           eq_refl eq_refl eq_refl eq_refl))).
    reflexivity.
Defined.

(** X19: a moderation command of the administrator in reply to a
    message of [target], on a platform that accepts the calls, makes its one
    platform call for that chat and that user and then confirms in HTML:
    ban bans, kick only lifts a ban, mute withdraws and unmute restores the
    permission to send, both without an end date. *)
Theorem moderation_applies (ADMIN_ID : Z) (mention_html : User -> string)
        (str_exn : exn -> string) (admin target : User) (chat : Chat) (s : Cmd.session) :
  id admin = ADMIN_ID ->
  bot_faults (Cmd.base s) = [] ->
  let update := admin_reply admin chat (Some target) in
  let html := Some "HTML" in
  Cmd.cmd_ban ADMIN_ID mention_html str_exn update s =
    (Ret tt, journalled s [Cmd.BanChatMember (chat_id chat) (id target);
                           Cmd.Reply ("🚫 Banned " ++ mention_html target) html])
  /\ Cmd.cmd_kick ADMIN_ID mention_html str_exn update s =
    (Ret tt, journalled s [Cmd.UnbanChatMember (chat_id chat) (id target);
                           Cmd.Reply ("👢 Kicked " ++ mention_html target) html])
  /\ Cmd.cmd_mute ADMIN_ID mention_html str_exn update s =
    (Ret tt, journalled s [Cmd.Restrict (chat_id chat) (id target) false;
                           Cmd.Reply ("🔇 Muted " ++ mention_html target) html])
  /\ Cmd.cmd_unmute ADMIN_ID mention_html str_exn update s =
    (Ret tt, journalled s [Cmd.Restrict (chat_id chat) (id target) true;
                           Cmd.Reply ("🔊 Unmuted " ++ mention_html target) html]).
Proof.
  intros Hid Hq update html. apply Z.eqb_eq in Hid.
  destruct s as [[d t sf bf tr] j]. cbn in Hq. subst bf.
  repeat split; run_cmd; cbn; rewrite Hid; cbn; unfold journalled; cbn;
    now rewrite <- app_assoc.
Qed.

Lemma moderation_applies_witness :
  Cmd.cmd_ban 1 sample_mention sample_str_exn
    (admin_reply root (mkChat 100) (Some bob)) (session_with [] []) =
    (Ret tt, Cmd.mkSession (mkWorld (mkDb [] []) 0 [] [] [])
               [Cmd.BanChatMember 100 8; Cmd.Reply "🚫 Banned Bob" (Some "HTML")]).
Proof.
  apply (moderation_applies 1 sample_mention sample_str_exn root bob (mkChat 100)
           (session_with [] []) eq_refl eq_refl).
Defined.

(** X20: when the ban call fails, [cmd_ban] goes on exactly as the reply
    "Failed to ban: ..." with nothing journalled; and when the ban is
    accepted but the confirmation fails, it goes on as the same reply, with
    the ban journalled: the failure text can follow a ban that took
    effect. *)
Theorem moderation_failure_report (ADMIN_ID : Z) (mention_html : User -> string)
        (str_exn : exn -> string) (admin target : User) (chat : Chat) (s : Cmd.session)
        (ks : schedule) :
  id admin = ADMIN_ID ->
  let update := admin_reply admin chat (Some target) in
  let m := Cmd.mkCmdMessage (Some (Cmd.mkReplied (Some target))) in
  let failed := ("Failed to ban: " ++ str_exn TelegramError)%string in
  (bot_faults (Cmd.base s) = 0%nat :: ks ->
     Cmd.cmd_ban ADMIN_ID mention_html str_exn update s =
       Cmd.reply_text m failed None
         (Cmd.mkSession (set_bot_faults ks (Cmd.base s)) (Cmd.journal s)))
  /\ (bot_faults (Cmd.base s) = 1%nat :: ks ->
     Cmd.cmd_ban ADMIN_ID mention_html str_exn update s =
       Cmd.reply_text m failed None
         (Cmd.mkSession (set_bot_faults ks (Cmd.base s))
            (Cmd.journal s ++ [Cmd.BanChatMember (chat_id chat) (id target)]))).
Proof.
  intros Hid update m failed. apply Z.eqb_eq in Hid.
  destruct s as [[d t sf bf tr] j].
  split; cbn [Cmd.base bot_faults]; intros ->; run_cmd; cbn; rewrite Hid; reflexivity.
Qed.

Lemma moderation_failure_report_witness :
  Cmd.cmd_ban 1 sample_mention sample_str_exn
    (admin_reply root (mkChat 100) (Some bob)) (session_with [] [0%nat]) =
    (Ret tt, Cmd.mkSession (mkWorld (mkDb [] []) 0 [] [] [])
               [Cmd.Reply "Failed to ban: error" None])
  /\ Cmd.cmd_ban 1 sample_mention sample_str_exn
    (admin_reply root (mkChat 100) (Some bob)) (session_with [] [1%nat]) =
    (Ret tt, Cmd.mkSession (mkWorld (mkDb [] []) 0 [] [] [])
               [Cmd.BanChatMember 100 8; Cmd.Reply "Failed to ban: error" None]).
Proof.
  split.
  - rewrite (proj1 (moderation_failure_report 1 sample_mention sample_str_exn root bob
                      (mkChat 100) (session_with [] [0%nat]) [] eq_refl) eq_refl).
    reflexivity.
  - rewrite (proj2 (moderation_failure_report 1 sample_mention sample_str_exn root bob
                      (mkChat 100) (session_with [] [1%nat]) [] eq_refl) eq_refl).
    reflexivity.
Defined.

(** *** What a command can journal *)

Lemma journals_silent {A} (P : Cmd.action -> Prop) (m : Cmd.C A) :
  (forall s, Cmd.journal (snd (m s)) = Cmd.journal s) -> journals P m.
Proof. intros H s. exists []. now rewrite app_nil_r. Qed.

Lemma journals_lift {A} (P : Cmd.action -> Prop) (m : M A) : journals P (Cmd.lift m).
Proof.
  apply journals_silent. intros s. unfold Cmd.lift.
  now destruct (m (Cmd.base s)).
Qed.

Lemma journals_cattr {A} (P : Cmd.action -> Prop) (o : option A) : journals P (Cmd.cattr o).
Proof. destruct o; now apply journals_silent. Qed.

Lemma journals_api_call (P : Cmd.action -> Prop) (a : Cmd.action) :
  P a -> journals P (Cmd.api_call a).
Proof.
  intros Ha s. unfold Cmd.api_call.
  destruct (tick (bot_faults (Cmd.base s))) as [[] sch]; cbn.
  - exists []. now rewrite app_nil_r.
  - exists [a]. split; [reflexivity | now constructor].
Qed.

Lemma journals_cbind {A B} (P : Cmd.action -> Prop) (m : Cmd.C A) (k : A -> Cmd.C B) :
  journals P m -> (forall a, journals P (k a)) -> journals P (Cmd.cbind m k).
Proof.
  intros Hm Hk s. unfold Cmd.cbind.
  destruct (Hm s) as [n1 [E1 F1]].
  destruct (m s) as [[a|e] s1]; cbn in E1.
  - destruct (Hk a s1) as [n2 [E2 F2]].
    exists (n1 ++ n2). rewrite E2, E1, app_assoc.
    split; [reflexivity | now apply Forall_app].
  - now exists n1.
Qed.

Lemma journals_ctry {A} (P : Cmd.action -> Prop) (m : Cmd.C A) (h : exn -> Cmd.C A) :
  journals P m -> (forall e, journals P (h e)) -> journals P (Cmd.ctry m h).
Proof.
  intros Hm Hh s. unfold Cmd.ctry.
  destruct (Hm s) as [n1 [E1 F1]].
  destruct (m s) as [[a|e] s1]; cbn in E1.
  - now exists n1.
  - destruct (Hh e s1) as [n2 [E2 F2]].
    exists (n1 ++ n2). rewrite E2, E1, app_assoc.
    split; [reflexivity | now apply Forall_app].
Qed.

Ltac journals_step :=
  match goal with
  | |- journals _ (Cmd.cbind _ _) => apply journals_cbind; [|intros]
  | |- journals _ (Cmd.ctry _ _) => apply journals_ctry; [|intros]
  | |- journals _ (Cmd.cattr _) => apply journals_cattr
  | |- journals _ (Cmd.lift _) => apply journals_lift
  | |- journals _ (Cmd.api_call _) => apply journals_api_call
  | |- journals _ (if ?b then _ else _) => destruct b
  | |- journals _ (match ?x with _ => _ end) => destruct x
  | |- journals _ _ => apply journals_silent; reflexivity
  end.

(** X21: whatever the update, the caller and the platform, [cmd_kick]
    never bans, restricts or deletes: every call it gets accepted is an
    unban or a reply. *)
Theorem kick_only_unbans (ADMIN_ID : Z) (mention_html : User -> string)
        (str_exn : exn -> string) (update : Cmd.Update) (s : Cmd.session) :
  exists new,
    Cmd.journal (snd (Cmd.cmd_kick ADMIN_ID mention_html str_exn update s))
      = Cmd.journal s ++ new
    /\ Forall kick_action new.
Proof.
  revert s. change (journals kick_action (Cmd.cmd_kick ADMIN_ID mention_html str_exn update)).
  unfold Cmd.cmd_kick, Cmd.reply_text, Cmd.unban_chat_member.
  repeat journals_step; exact I.
Qed.

(** ** The broadcast *)

(** The loop of [cmd_broadcast] under any platform schedule: it always
    returns; it journals a send for exactly the recipients whose call the
    schedule accepts, in the order of the list, and its count grows by their
    number. *)
Lemma broadcast_loop_run (msg : string) (users : list Z) :
  forall (sent : Z) (s : Cmd.session),
  exists s',
    let delivered := accepted (bot_faults (Cmd.base s)) users in
    Cmd.broadcast_loop msg users sent s = (Ret (sent + Z.of_nat (List.length delivered)), s')
    /\ Cmd.journal s' = Cmd.journal s ++ sends msg delivered
    /\ bot_faults (Cmd.base s') = schedule_after (bot_faults (Cmd.base s)) users
    /\ db (Cmd.base s') = db (Cmd.base s)
    /\ trace (Cmd.base s') = trace (Cmd.base s).
Proof.
  induction users as [|uid users IH]; intros sent s.
  - exists s. cbn. rewrite Z.add_0_r, app_nil_r. auto.
  - destruct s as [[d t sf bf tr] j]. cbn [Cmd.broadcast_loop].
    unfold Cmd.cbind at 1, Cmd.ctry, Cmd.cbind, Cmd.send_message, Cmd.api_call, Cmd.sleep.
    cbn [Cmd.base Cmd.journal bot_faults accepted schedule_after].
    destruct (tick bf) as [[] sch] eqn:Htick; unfold set_bot_faults, set_clock; cbn.
    + destruct (IH sent (Cmd.mkSession (mkWorld d t sf sch tr) j))
        as (s' & Hrun & Hj & Hb & Hdb & Htr).
      exists s'. rewrite Hrun. cbn in *. auto.
    + destruct (IH (sent + 1)
                   (Cmd.mkSession (mkWorld d (t + 50000) sf sch tr)
                      (j ++ [Cmd.SendMessage uid msg None])))
        as (s' & Hrun & Hj & Hb & Hdb & Htr).
      exists s'. rewrite Hrun. cbn in *.
      split; [do 2 f_equal; lia|].
      split; [now rewrite Hj, <- app_assoc|]. auto.
Qed.

Lemma accepted_quiet (uids : list Z) :
  accepted [] uids = uids /\ schedule_after [] uids = [].
Proof.
  induction uids as [|u uids [IHa IHs]]; cbn; [auto|].
  now rewrite IHa, IHs.
Qed.

(** Under a schedule that refuses the call number [i] and no other, all
    recipients but the one at position [i] are reached. *)
Lemma accepted_one_refusal (i : nat) (uids : list Z) :
  accepted [i] uids = firstn i uids ++ skipn (S i) uids
  /\ ((i < List.length uids)%nat -> schedule_after [i] uids = []).
Proof.
  revert i. induction uids as [|u uids IH]; intros i.
  - cbn. rewrite firstn_nil. split; [reflexivity | cbn; lia].
  - destruct i as [|i]; cbn.
    + destruct (accepted_quiet uids) as [-> ->]. auto.
    + destruct (IH i) as [-> Hs]. split; [reflexivity|].
      intros Hi. apply Hs. lia.
Qed.

(** X22: [cmd_broadcast] from anyone but the administrator is exactly the
    reply "Admin only", and from the administrator without arguments exactly
    the usage reply: in both cases the registry is not read and nothing is
    sent to any user. *)
Theorem broadcast_gates (ADMIN_ID : Z) (update : Cmd.Update) (u : User) (m : Cmd.Message)
        (args : list string) (s : Cmd.session) :
  Cmd.effective_user update = Some u ->
  Cmd.message update = Some m ->
  (id u <> ADMIN_ID ->
     Cmd.cmd_broadcast ADMIN_ID update args s = Cmd.reply_text m "❌ Admin only" None s)
  /\ (id u = ADMIN_ID ->
      Cmd.cmd_broadcast ADMIN_ID update [] s =
        Cmd.reply_text m "Usage: /broadcast <message>" None s).
Proof.
  intros Hu Hm. unfold Cmd.cmd_broadcast, Cmd.cbind, Cmd.cattr, Cmd.cret.
  rewrite Hu, Hm. split; intros Hid.
  - apply Z.eqb_neq in Hid. rewrite Hid. cbn.
    now destruct (Cmd.reply_text m _ None s) as [[] ?].
  - apply Z.eqb_eq in Hid. rewrite Hid. cbn.
    now destruct (Cmd.reply_text m _ None s) as [[] ?].
Qed.

Lemma broadcast_gates_witness :
  Cmd.cmd_broadcast 1 (admin_reply alice (mkChat 100) None) ["hello"]
    (session_with [alice_row; bob_row] []) =
    (Ret tt, Cmd.mkSession (mkWorld (mkDb [alice_row; bob_row] []) 0 [] [] [])
               [Cmd.Reply "❌ Admin only" None])
  /\ Cmd.cmd_broadcast 1 (admin_reply root (mkChat 100) None) []
    (session_with [alice_row; bob_row] []) =
    (Ret tt, Cmd.mkSession (mkWorld (mkDb [alice_row; bob_row] []) 0 [] [] [])
               [Cmd.Reply "Usage: /broadcast <message>" None]).
Proof.
  split.
  - rewrite (proj1 (broadcast_gates 1 (admin_reply alice (mkChat 100) None) alice
                      (Cmd.mkCmdMessage (Some (Cmd.mkReplied None))) ["hello"]
                      (session_with [alice_row; bob_row] []) eq_refl eq_refl)).
    + reflexivity.
    + discriminate.
  - rewrite (proj2 (broadcast_gates 1 (admin_reply root (mkChat 100) None) root
                      (Cmd.mkCmdMessage (Some (Cmd.mkReplied None))) []
                      (session_with [alice_row; bob_row] []) eq_refl eq_refl)).
    + reflexivity.
    + reflexivity.
Defined.

(** X23: a broadcast of the administrator with a text, on a readable
    store.  The sends go out in the order in which the registry lists the
    ids (ascending) and are journalled for exactly the recipients whose call
    the platform accepts; a refused send does not stop the remaining ones:
    when one call only is refused, every other registered user is sent the
    text.  The final reply, when the platform accepts it, reports exactly
    the number of accepted sends; when it is refused the command raises
    after the sends.  On a platform that accepts every call, every
    registered user is sent the text. *)
Theorem broadcast_counts_deliveries (ADMIN_ID : Z) (update : Cmd.Update) (u : User)
        (m : Cmd.Message) (a : string) (args : list string) (s : Cmd.session) :
  Cmd.effective_user update = Some u ->
  id u = ADMIN_ID ->
  Cmd.message update = Some m ->
  sqlite_faults (Cmd.base s) = [] ->
  let msg := String.concat " " (a :: args) in
  let r := Cmd.cmd_broadcast ADMIN_ID update (a :: args) s in
  let ids := sort_keys (user_keys (users (db (Cmd.base s)))) in
  let delivered := accepted (bot_faults (Cmd.base s)) ids in
  let report := Cmd.Reply ("📢 Sent to " ++ str_int (Z.of_nat (List.length delivered))
                           ++ " users") None in
  ((fst r = Ret tt
    /\ Cmd.journal (snd r) = Cmd.journal s ++ sends msg delivered ++ [report])
   \/ (fst r = Raise TelegramError
       /\ Cmd.journal (snd r) = Cmd.journal s ++ sends msg delivered))
  /\ (bot_faults (Cmd.base s) = [] ->
      fst r = Ret tt /\ delivered = ids
      /\ Cmd.journal (snd r) = Cmd.journal s ++ sends msg ids ++ [report])
  /\ (forall i, bot_faults (Cmd.base s) = [i] -> (i < List.length ids)%nat ->
        fst r = Ret tt /\ delivered = firstn i ids ++ skipn (S i) ids
        /\ Cmd.journal (snd r) =
             Cmd.journal s ++ sends msg (firstn i ids ++ skipn (S i) ids) ++ [report]).
Proof.
  intros Hu Hid Hm Hq msg r ids delivered report. apply Z.eqb_eq in Hid.
  assert (Hr : r = match Cmd.broadcast_loop msg ids 0 s with
                   | (Ret sent, s') =>
                       Cmd.api_call
                         (Cmd.Reply ("📢 Sent to " ++ str_int sent ++ " users") None) s'
                   | (Raise e, s') => (Raise e, s')
                   end).
  { subst r. unfold Cmd.cmd_broadcast, Cmd.cbind, Cmd.cattr, Cmd.cret, Cmd.lift,
                    Cmd.reply_text.
    rewrite Hu, Hid, Hm. cbn [negb].
    rewrite (get_all_user_ids_quiet _ Hq). destruct s; reflexivity. }
  destruct (broadcast_loop_run msg ids 0 s) as (s' & Hrun & Hj & Hb & Hdb & Htr).
  cbv zeta in Hrun. fold delivered in Hrun, Hj.
  assert (Hcases :
    (tick (bot_faults (Cmd.base s')) = (false, snd (tick (bot_faults (Cmd.base s'))))
     /\ fst r = Ret tt
     /\ Cmd.journal (snd r) = Cmd.journal s ++ sends msg delivered ++ [report])
    \/ (fst r = Raise TelegramError
        /\ tick (bot_faults (Cmd.base s')) = (true, snd (tick (bot_faults (Cmd.base s'))))
        /\ Cmd.journal (snd r) = Cmd.journal s ++ sends msg delivered)).
  { rewrite Hr, Hrun. cbn [Z.add]. unfold Cmd.api_call.
    destruct (tick (bot_faults (Cmd.base s'))) as [[] sch]; cbn.
    - right. auto.
    - left. split; [reflexivity|]. split; [reflexivity|].
      subst report. now rewrite Hj, <- app_assoc. }
  clear Hr Hrun. clearbody r.
  split; [|split].
  - destruct Hcases as [(_ & H1 & H2)|(H1 & _ & H2)]; auto.
  - intros Hquiet. rewrite Hquiet in Hb.
    assert (Hd : delivered = ids)
      by (subst delivered; rewrite Hquiet; apply accepted_quiet).
    destruct (accepted_quiet ids) as [_ Hs]. rewrite Hs in Hb.
    destruct Hcases as [(_ & H1 & H2)|(_ & H1 & _)].
    + rewrite <- Hd. auto.
    + rewrite Hb in H1. discriminate.
  - intros i Hone Hi. rewrite Hone in Hb.
    destruct (accepted_one_refusal i ids) as [Ha Hs].
    assert (Hd : delivered = firstn i ids ++ skipn (S i) ids)
      by (subst delivered; rewrite Hone; exact Ha).
    rewrite (Hs Hi) in Hb.
    destruct Hcases as [(_ & H1 & H2)|(_ & H1 & _)].
    + rewrite <- Hd. auto.
    + rewrite Hb in H1. discriminate.
Qed.

Lemma broadcast_counts_deliveries_witness :
  Cmd.cmd_broadcast 1 (admin_reply root (mkChat 100) None) ["hello"; "all"]
    (session_with three_users [0%nat]) =
    (Ret tt,
     Cmd.mkSession (mkWorld (mkDb three_users []) 100000 [] [] [])
       [Cmd.SendMessage 8 "hello all" None; Cmd.SendMessage 9 "hello all" None;
        Cmd.Reply "📢 Sent to 2 users" None])
  /\ accepted [0%nat] (sort_keys (user_keys three_users)) = [8; 9]
  /\ accepted [] (sort_keys (user_keys three_users)) = [7; 8; 9].
Proof.
  pose proof (broadcast_counts_deliveries 1 (admin_reply root (mkChat 100) None) root
                (Cmd.mkCmdMessage (Some (Cmd.mkReplied None))) "hello" ["all"]
                (session_with three_users [0%nat]) eq_refl eq_refl eq_refl eq_refl)
    as (_ & _ & Hone).
  pose proof (broadcast_counts_deliveries 1 (admin_reply root (mkChat 100) None) root
                (Cmd.mkCmdMessage (Some (Cmd.mkReplied None))) "hello" ["all"]
                (session_with three_users []) eq_refl eq_refl eq_refl eq_refl)
    as (_ & Hquiet & _).
  split; [reflexivity|]. split.
  - refine (proj1 (proj2 (Hone 0%nat eq_refl _))). cbn. lia.
  - exact (proj1 (proj2 (Hquiet eq_refl))).
Defined.

(** ** Chat events, the deferred deletion and /start *)

(** X24: [chat_member_update] never raises, whatever the update, the
    storage and the platform do. *)
Theorem chat_member_update_is_contained (mention_html : User -> string)
        (update : Cmd.Update) (s : Cmd.session) :
  fst (Cmd.chat_member_update mention_html update s) = Ret tt.
Proof.
  unfold Cmd.chat_member_update, Cmd.ctry.
  match goal with |- context [match ?b s with _ => _ end] => destruct (b s) as [[[]|e] s'] end;
    [reflexivity|].
  unfold Cmd.lift, logger_warning, emit. reflexivity.
Qed.

(** X25: a membership change to a status other than MEMBER, CREATOR or
    ADMINISTRATOR changes nothing; a change to one of them, on a readable
    store and a platform that accepts the call, saves the user as
    [save_user] does and sends the HTML greeting to the chat of the
    change. *)
Theorem chat_member_update_welcomes (mention_html : User -> string)
        (cm : Cmd.ChatMemberUpdated) (name : string)
        (eu : option User) (ec : option Chat) (em : option Cmd.Message) (s : Cmd.session) :
  let update := Cmd.mkCmdUpdate eu ec em (Some cm) in
  let new := Cmd.new_chat_member cm in
  Cmd.status_name new = Some name ->
  (joins name = false -> Cmd.chat_member_update mention_html update s = (Ret tt, s))
  /\ (joins name = true ->
      sqlite_faults (Cmd.base s) = [] -> bot_faults (Cmd.base s) = [] ->
      Cmd.chat_member_update mention_html update s =
        (Ret tt,
         Cmd.mkSession (snd (save_user (Cmd.user new) (Cmd.base s)))
           (Cmd.journal s
            ++ [Cmd.SendMessage (chat_id (Cmd.chat cm))
                  (welcome mention_html (Cmd.user new)) (Some "HTML")]))).
Proof.
  intros update new Hname. subst update new.
  unfold Cmd.chat_member_update, Cmd.ctry, Cmd.cbind, Cmd.cattr, Cmd.cret, Cmd.lift.
  cbn [Cmd.chat_member]. rewrite Hname. fold (joins name).
  split.
  - intros ->. reflexivity.
  - intros -> Hsq Hbot. rewrite (save_user_quiet _ _ Hsq). cbn [snd].
    unfold Cmd.send_message, Cmd.api_call.
    destruct s as [[d t sf bf tr] j]. cbn in Hbot |- *. subst bf. reflexivity.
Qed.

Lemma chat_member_update_welcomes_witness :
  Cmd.chat_member_update sample_mention
    (Cmd.mkCmdUpdate None None None
       (Some (Cmd.mkChatMemberUpdated (Cmd.mkChatMember (Some "LEFT") bob) (mkChat 100))))
    (session_with [] []) = (Ret tt, session_with [] [])
  /\ Cmd.chat_member_update sample_mention
    (Cmd.mkCmdUpdate None None None
       (Some (Cmd.mkChatMemberUpdated (Cmd.mkChatMember (Some "MEMBER") bob) (mkChat 100))))
    (session_with [] []) =
    (Ret tt,
     Cmd.mkSession (mkWorld (mkDb [bob_row] []) 0 [] [] [])
       [Cmd.SendMessage 100 (welcome sample_mention bob) (Some "HTML")]).
Proof.
  split.
  - apply (proj1 (chat_member_update_welcomes sample_mention
                    (Cmd.mkChatMemberUpdated (Cmd.mkChatMember (Some "LEFT") bob) (mkChat 100))
                    "LEFT" None None None (session_with [] []) eq_refl)).
    reflexivity.
  - apply (proj2 (chat_member_update_welcomes sample_mention
                    (Cmd.mkChatMemberUpdated (Cmd.mkChatMember (Some "MEMBER") bob) (mkChat 100))
                    "MEMBER" None None None (session_with [] []) eq_refl));
      reflexivity.
Defined.



Lemma save_user_of_offline (user : option User) : offline (save_user_of user).
Proof.
  unfold save_user_of, sqlite3_connect, insert_or_ignore_user, conn_commit,
         conn_close, logger_warning, attr.
  repeat offline_step.
Qed.

Lemma save_user_of_none (w : world) :
  exists w',
    save_user_of None w = (Ret tt, w')
    /\ db w' = db w /\ trace w' = trace w ++ [LogWarning "save_user error"].
Proof.
  destruct w as [d t sf bf tr]. unfold save_user_of.
  destruct sf as [|[|k] ks]; run_sqlite; unfold attr, raise, logger_warning, emit; cbn;
    eexists; repeat split.
Qed.

(** X27: [cmd_start] on an update with a message, on a platform that
    accepts the call, always sends the welcome text, whatever the storage
    does to the save before it.  Without a sender the save only logs its
    warning and the database is untouched; with a sender and a readable
    store the sender is registered. *)
Theorem cmd_start_always_welcomes (update : Cmd.Update) (m : Cmd.Message) (s : Cmd.session) :
  Cmd.message update = Some m ->
  bot_faults (Cmd.base s) = [] ->
  let w' := snd (save_user_of (Cmd.effective_user update) (Cmd.base s)) in
  Cmd.cmd_start update s =
    (Ret tt,
     Cmd.mkSession w'
       (Cmd.journal s
        ++ [Cmd.Reply "👋 Welcome to SecureBot! Use /help to see commands." None]))
  /\ (Cmd.effective_user update = None ->
      db w' = db (Cmd.base s)
      /\ trace w' = trace (Cmd.base s) ++ [LogWarning "save_user error"])
  /\ (forall u, Cmd.effective_user update = Some u -> sqlite_faults (Cmd.base s) = [] ->
        has_user (id u) (users (db w')) = true).
Proof.
  intros Hm Hbot w'.
  split; [|split].
  - unfold Cmd.cmd_start, Cmd.cbind, Cmd.lift, Cmd.cattr, Cmd.cret,
           Cmd.reply_text, Cmd.api_call.
    rewrite Hm. fold w'.
    destruct (save_user_of_offline (Cmd.effective_user update) (Cmd.base s)) as [Hb _].
    fold w' in Hb.
    assert (Hret : fst (save_user_of (Cmd.effective_user update) (Cmd.base s)) = Ret tt).
    { unfold save_user_of, try_except.
      match goal with |- context [match ?b _ with _ => _ end] =>
        destruct (b (Cmd.base s)) as [[[]|e] w1] end; reflexivity. }
    subst w'. destruct (save_user_of _ (Cmd.base s)) as [o w1]. cbn in *. subst o.
    rewrite Hbot in Hb. destruct w1 as [d1 t1 sf1 bf1 tr1]. cbn in Hb |- *. subst bf1.
    reflexivity.
  - intros Hnone. subst w'. rewrite Hnone.
    destruct (save_user_of_none (Cmd.base s)) as (w1 & -> & Hdb & Htr). auto.
  - intros u Hu Hsq. subst w'. rewrite Hu.
    change (save_user_of (Some u)) with (save_user u).
    rewrite save_user_quiet by assumption. apply (with_user_has_user u).
Qed.

Lemma cmd_start_always_welcomes_witness :
  Cmd.cmd_start (Cmd.mkCmdUpdate None None (Some (Cmd.mkCmdMessage None)) None)
    (session_with [] []) =
    (Ret tt,
     Cmd.mkSession (mkWorld (mkDb [] []) 0 [] [] [LogWarning "save_user error"])
       [Cmd.Reply "👋 Welcome to SecureBot! Use /help to see commands." None])
  /\ has_user 8 (users (db (snd (save_user_of (Some bob) (Cmd.base (session_with [] []))))))
     = true.
Proof.
  split.
  - apply (proj1 (cmd_start_always_welcomes
                    (Cmd.mkCmdUpdate None None (Some (Cmd.mkCmdMessage None)) None)
                    (Cmd.mkCmdMessage None) (session_with [] []) eq_refl eq_refl)).
  - apply (proj2 (proj2 (cmd_start_always_welcomes
                    (Cmd.mkCmdUpdate (Some bob) None (Some (Cmd.mkCmdMessage None)) None)
                    (Cmd.mkCmdMessage None) (session_with [] []) eq_refl eq_refl))
            bob eq_refl eq_refl).
Defined.
